(** * Citas en línea: the reservation contract of [backend/server.js]

    A shallow embedding of the Express handlers of the dental-clinic backend
    ([GET /api/appointments/occupied], [POST /api/appointments],
    [PATCH /api/appointments/:id/cancel]) over an explicit model of the
    [Cita] collection, and the properties of the reservation contract
    established on it.

    Conventions.
    - A JavaScript [Date] is its time value: milliseconds since the epoch,
      in [Z].
    - The [Cita] collection is the list of its documents in insertion
      order, together with the generator of [_id] values.
    - Every [await] of a handler is one operation of [Op], and so is the
      construction of a document, which draws its [_id]; a handler is a
      [Prog], a tree of operations whose continuations are the code after
      the [await].  Running a program against a [World] gives the response
      and the world after the request; running two programs under a
      schedule gives the interleavings the event loop allows (and, the
      construction being a turn of its own, a few more).
    - What the outside decides (the answers of Google Calendar and Twilio,
      a rejection by the storage layer) is read from an [Env] given with
      the request. *)

From Stdlib Require Import ZArith List Bool Ascii String Lia.
From Stdlib Require Import Permutation Sorted.
From Stdlib Require OrderedTypeEx.
Import ListNotations.
Open Scope string_scope.
Open Scope Z_scope.

Set Implicit Arguments.

(** ** Data model: [citaSchema] *)

Inductive Estado : Type := confirmada | cancelada | completada.

Definition Estado_eqb (a b : Estado) : bool :=
  match a, b with
  | confirmada, confirmada | cancelada, cancelada | completada, completada => true
  | _, _ => false
  end.

Definition ObjectId : Type := N.
Bind Scope N_scope with ObjectId.

Record Cita : Type := mkCita {
  _id : ObjectId;
  nombreCompleto : string;
  email : string;
  telefono : string;
  tipoServicio : string;
  fecha : Z;
  horario : string;
  estado : Estado;
  googleCalendarEventId : option string;
  fechaCreacion : Z
}.

(** The two [enum] lists of the schema, which are also the lists given to
    [isIn] by the request validators. *)
Definition servicios : list string :=
  [ "limpieza-dental"; "ortodoncia"; "extracciones"; "implantes";
    "carillas"; "diseño-sonrisa"; "radiografia"; "protesis-dentales" ].

Definition horarios : list string :=
  [ "08:00"; "09:00"; "10:00"; "11:00"; "13:00"; "14:00"; "15:00"; "16:00" ].

(** A thrown JavaScript value; the handlers inspect nothing but [error.code]. *)
Record JsError : Type := mkError { code : option Z }.

Inductive Result (A : Type) : Type :=
| Ok (a : A)
| Throw (e : JsError).
Arguments Ok {A} a.
Arguments Throw {A} e.

Definition E11000 : JsError := mkError (Some 11000).

(** ** The string and date functions of the platform

    [express-validator] (validator.js), [String.prototype] and [Date.parse]
    are not code of the repository: the handlers are embedded over this
    interface.  [toDate] is validator.js's [toDate]: the time value of
    [Date.parse], or [None] for JavaScript's [null]. *)
Class Platform : Type := {
  trim : string -> string;
  toLowerCase : string -> string;
  isLength : string -> nat -> nat -> bool;
  isEmail : string -> bool;
  normalizeEmail : string -> string;
  isISO8601 : string -> bool;
  toDate : string -> option Z
}.

(** ** Calendar arithmetic of [Date] *)

Definition msPerHour : Z := 3600000.
Definition msPerDay : Z := 86400000.

(** The server's zone is a fixed offset [tz], in milliseconds east of UTC
    (the clinic's zone, America/El_Salvador, has no daylight saving time). *)
Definition localDay (tz t : Z) : Z := (t + tz) / msPerDay.

(** [d.setHours(0, 0, 0, 0)]: local midnight of the local day of [d]. *)
Definition setHours0 (tz t : Z) : Z := localDay tz t * msPerDay - tz.

(** ** Request validation: the chains of [app.post('/api/appointments', [...])] *)

Record ReqBody : Type := mkBody {
  b_nombreCompleto : string;
  b_email : string;
  b_telefono : string;
  b_tipoServicio : string;
  b_fecha : string;
  b_horario : string
}.

Record ValidationError : Type := mkVErr { param : string; msg : string }.

Definition isIn (v : string) (l : list string) : bool :=
  existsb (String.eqb v) l.

Definition isDigit (c : ascii) : bool :=
  let n := nat_of_ascii c in (48 <=? n)%nat && (n <=? 57)%nat.

Fixpoint allDigits (s : string) : bool :=
  match s with
  | EmptyString => true
  | String c r => isDigit c && allDigits r
  end.

(** [/^\+503[0-9]{8}$/.test(v)] *)
Definition matchesTelefono (v : string) : bool :=
  match v with
  | String "+" (String "5" (String "0" (String "3" r))) =>
      (String.length r =? 8)%nat && allDigits r
  | _ => false
  end.

(** Abstract relational comparison [fecha < hoy] of the custom validator:
    a [Date] is compared by its time value, [null] converts to [0]. *)
Definition timeValue (d : option Z) : Z :=
  match d with Some t => t | None => 0 end.

(** The fields the handler destructures from [req.body] once the chains have
    run; [d_fecha] is the time value of [new Date(fecha)]. *)
Record Draft : Type := mkDraft {
  d_nombreCompleto : string;
  d_email : string;
  d_telefono : string;
  d_tipoServicio : string;
  d_fecha : Z;
  d_horario : string
}.

Section Validation.
Context {P : Platform}.
Variable tz : Z.

Definition chain_nombreCompleto (v : string) : list ValidationError :=
  if isLength (trim v) 2 100 then []
  else [mkVErr "nombreCompleto" "El nombre debe tener entre 2 y 100 caracteres"].

Definition chain_email (v : string) : list ValidationError :=
  if isEmail v then [] else [mkVErr "email" "Debe ser un email válido"].

Definition chain_telefono (v : string) : list ValidationError :=
  if matchesTelefono v then []
  else [mkVErr "telefono" "El teléfono debe tener el formato +503XXXXXXXX"].

Definition chain_tipoServicio (v : string) : list ValidationError :=
  if isIn v servicios then [] else [mkVErr "tipoServicio" "Tipo de servicio no válido"].

(** [.isISO8601().toDate().custom(fecha => ...)]: no [bail], so the custom
    validator runs on the sanitized value whatever [isISO8601] said. *)
Definition fechaEnElPasado (now : Z) (v : string) : bool :=
  timeValue (toDate v) <? setHours0 tz now.

Definition chain_fecha (now : Z) (v : string) : list ValidationError :=
  (if isISO8601 v then [] else [mkVErr "fecha" "Invalid value"])
  ++ (if fechaEnElPasado now v
      then [mkVErr "fecha" "La fecha no puede ser en el pasado"] else []).

Definition chain_horario (v : string) : list ValidationError :=
  if isIn v horarios then [] else [mkVErr "horario" "Horario no válido"].

(** [validationResult(req).array()] *)
Definition validationResult (now : Z) (b : ReqBody) : list ValidationError :=
  chain_nombreCompleto (b_nombreCompleto b)
  ++ chain_email (b_email b)
  ++ chain_telefono (b_telefono b)
  ++ chain_tipoServicio (b_tipoServicio b)
  ++ chain_fecha now (b_fecha b)
  ++ chain_horario (b_horario b).

Definition isEmpty (l : list ValidationError) : bool :=
  match l with [] => true | _ => false end.

(** [req.body] after the sanitizers, as the handler destructures it. *)
Definition sanitized (b : ReqBody) : Draft :=
  {| d_nombreCompleto := trim (b_nombreCompleto b);
     d_email := normalizeEmail (b_email b);
     d_telefono := b_telefono b;
     d_tipoServicio := b_tipoServicio b;
     d_fecha := timeValue (toDate (b_fecha b));
     d_horario := b_horario b |}.
End Validation.

(** ** Responses *)

(** An element of the answer of [GET /api/appointments/occupied]: the
    projection ['fecha horario'] of a document (with its [_id]). *)
Record Ocupada : Type := mkOcupada {
  o_id : ObjectId;
  o_fecha : Z;
  o_horario : string
}.

Inductive RespBody : Type :=
| BodyOcupadas (l : list Ocupada)
| BodyError (error mensaje : string) (errores : list ValidationError)
| BodyCreada (id : ObjectId) (nombre : string) (fecha_ : Z) (horario_ : string)
             (servicio : string) (googleCalendar sms : bool)
| BodyCancelada (id : ObjectId) (estado_ : Estado).

Record Response : Type := mkResp { status : Z; body : RespBody }.

(** ** Operations and programs *)

Inductive Op : Type -> Type :=
| CitaFindOcupadas (now : Z) : Op (Result (list Ocupada))
| CitaFindOne (f : Z) (h : string) : Op (Result (option Cita))
| CitaNew (d : Draft) (now : Z) : Op Cita
| CitaSave (isNew : bool) (c : Cita) : Op (Result unit)
| CalendarEventsInsert (c : Cita) : Op (Result string)
| TwilioMessagesCreate (c : Cita) : Op (Result unit)
| CitaFindByIdAndUpdate (id : ObjectId) : Op (Result (option Cita))
| CalendarEventsDelete (eventId : string) : Op (Result unit).

Inductive Prog (R : Type) : Type :=
| Ret (r : R)
| Vis (A : Type) (op : Op A) (k : A -> Prog R).
Arguments Ret {R} r.
Arguments Vis {R A} op k.

Notation "'await' x <- op ;; k" := (Vis op (fun x => k))
  (at level 61, x pattern, op at next level, right associativity).

(** ** The world of a request *)

(** Calls made to the two collaborators, oldest first. *)
Inductive Call : Type :=
| CalledCalendarInsert (cita : ObjectId)
| CalledTwilioCreate (to : string)
| CalledCalendarDelete (eventId : string).

Record World : Type := mkWorld {
  citas : list Cita;
  nextId : ObjectId;
  calls : list Call
}.

(** What the outside answers to one request.  A [_fault] is the error with
    which the promise of the operation rejects for a reason that is not in
    the collection: the connection, a time-out, a validation error of the
    schema; [None] when the operation is carried out.  The duplicate-key
    error of the unique index is not a fault: it is decided by the
    collection, in [exec]. *)
Record Env : Type := mkEnv {
  find_fault : option JsError;
  findOne_fault : option JsError;
  insert_fault : option JsError;
  update_fault : option JsError;
  findByIdAndUpdate_fault : option JsError;
  calendar_insert : Result string;
  twilio_create : Result unit;
  calendar_delete : Result unit
}.

Definition sameSlot (f : Z) (h : string) (c : Cita) : bool :=
  (fecha c =? f) && String.eqb (horario c) h.

Definition hasId (id : ObjectId) (c : Cita) : bool := N.eqb (_id c) id.

(** Apply [f] to the first element that satisfies [p]. *)
Fixpoint updateFirst (p : Cita -> bool) (f : Cita -> Cita) (l : list Cita) : list Cita :=
  match l with
  | [] => []
  | c :: r => if p c then f c :: r else c :: updateFirst p f r
  end.

Definition setEstado (e : Estado) (c : Cita) : Cita :=
  mkCita (_id c) (nombreCompleto c) (email c) (telefono c) (tipoServicio c)
         (fecha c) (horario c) e (googleCalendarEventId c) (fechaCreacion c).

Definition setEventId (ev : option string) (c : Cita) : Cita :=
  mkCita (_id c) (nombreCompleto c) (email c) (telefono c) (tipoServicio c)
         (fecha c) (horario c) (estado c) ev (fechaCreacion c).

Definition ocupada (c : Cita) : Ocupada := mkOcupada (_id c) (fecha c) (horario c).

Definition logCall (x : Call) (w : World) : World :=
  mkWorld (citas w) (nextId w) (calls w ++ [x]).

Definition setCitas (l : list Cita) (w : World) : World :=
  mkWorld l (nextId w) (calls w).

Section Server.
Context {P : Platform}.

(** [new Cita({...})]: the schema's setters and defaults, and a fresh [_id]. *)
Definition newCita (id : ObjectId) (d : Draft) (now : Z) : Cita :=
  {| _id := id;
     nombreCompleto := trim (d_nombreCompleto d);
     email := toLowerCase (trim (d_email d));
     telefono := trim (d_telefono d);
     tipoServicio := d_tipoServicio d;
     fecha := d_fecha d;
     horario := d_horario d;
     estado := confirmada;
     googleCalendarEventId := None;
     fechaCreacion := now |}.

Definition exec (env : Env) {A : Type} (op : Op A) (w : World) : A * World :=
  match op in Op T return T * World with
  | CitaFindOcupadas now =>
      (* Cita.find({estado: 'confirmada', fecha: {$gte: new Date()}}, 'fecha horario') *)
      match find_fault env with
      | Some e => (Throw e, w)
      | None =>
          (Ok (map ocupada
                 (filter (fun c => Estado_eqb (estado c) confirmada && (now <=? fecha c))
                         (citas w))), w)
      end
  | CitaFindOne f h =>
      (* Cita.findOne({fecha, horario, estado: 'confirmada'}) *)
      match findOne_fault env with
      | Some e => (Throw e, w)
      | None =>
          (Ok (find (fun c => sameSlot f h c && Estado_eqb (estado c) confirmada)
                    (citas w)), w)
      end
  | CitaNew d now =>
      (newCita (nextId w) d now, mkWorld (citas w) (N.succ (nextId w)) (calls w))
  | CitaSave true c =>
      (* insert, under the unique index {fecha: 1, horario: 1} *)
      match insert_fault env with
      | Some e => (Throw e, w)
      | None =>
          if existsb (sameSlot (fecha c) (horario c)) (citas w)
          then (Throw E11000, w)
          else (Ok tt, setCitas (citas w ++ [c]) w)
      end
  | CitaSave false c =>
      (* update of the modified path, googleCalendarEventId, by _id *)
      match update_fault env with
      | Some e => (Throw e, w)
      | None =>
          if existsb (hasId (_id c)) (citas w)
          then (Ok tt,
                setCitas (updateFirst (hasId (_id c))
                            (setEventId (googleCalendarEventId c)) (citas w)) w)
          else (Throw (mkError None), w)
      end
  | CalendarEventsInsert c =>
      (calendar_insert env, logCall (CalledCalendarInsert (_id c)) w)
  | TwilioMessagesCreate c =>
      (twilio_create env, logCall (CalledTwilioCreate (telefono c)) w)
  | CitaFindByIdAndUpdate id =>
      (* Cita.findByIdAndUpdate(id, {estado: 'cancelada'}, {new: true}) *)
      match findByIdAndUpdate_fault env with
      | Some e => (Throw e, w)
      | None =>
          match find (hasId id) (citas w) with
          | None => (Ok None, w)
          | Some c =>
              (Ok (Some (setEstado cancelada c)),
               setCitas (updateFirst (hasId id) (setEstado cancelada) (citas w)) w)
          end
      end
  | CalendarEventsDelete ev =>
      (calendar_delete env, logCall (CalledCalendarDelete ev) w)
  end.

Fixpoint run (env : Env) {R : Type} (p : Prog R) (w : World) : R * World :=
  match p with
  | Ret r => (r, w)
  | Vis op k => let (a, w') := exec env op w in run env (k a) w'
  end.
End Server.

(** ** The handlers *)

Definition truthy (s : string) : bool :=
  match s with EmptyString => false | _ => true end.

(** [!!googleEventId], for [googleEventId] either [null] or a string. *)
Definition notNot (v : option string) : bool :=
  match v with Some s => truthy s | None => false end.

Definition horarioOcupado : Response :=
  mkResp 409
    (BodyError "Horario ocupado"
       "Lo sentimos, la fecha y hora ya fue reservada por alguien más, intente de nuevo."
       []).

Definition errorDelServidor (mensaje : string) : Response :=
  mkResp 500 (BodyError "Error del servidor" mensaje []).

(** The [catch] of [POST /api/appointments]. *)
Definition catchCrear (e : JsError) : Response :=
  if match code e with Some n => n =? 11000 | None => false end
  then horarioOcupado
  else errorDelServidor
         "Ocurrió un error al procesar tu solicitud. Por favor intenta de nuevo.".

Definition creada (c : Cita) (googleEventId : option string) (smsEnviado : bool)
  : Response :=
  mkResp 201
    (BodyCreada (_id c) (nombreCompleto c) (fecha c) (horario c) (tipoServicio c)
                (notNot googleEventId) smsEnviado).

Section Handlers.
Context {P : Platform}.
Variable tz : Z.

(** [app.get('/api/appointments/occupied')], at the instant [now]. *)
Definition getOccupied (now : Z) : Prog Response :=
  await r <- CitaFindOcupadas now;;
  match r with
  | Ok citasOcupadas => Ret (mkResp 200 (BodyOcupadas citasOcupadas))
  | Throw _ => Ret (errorDelServidor "No se pudieron cargar los horarios ocupados")
  end.

(** The second [try] of the handler and the response. *)
Definition enviarSMS (nuevaCita : Cita) (googleEventId : option string)
  : Prog Response :=
  await r <- TwilioMessagesCreate nuevaCita;;
  match r with
  | Ok _ => Ret (creada nuevaCita googleEventId true)
  | Throw _ => Ret (creada nuevaCita googleEventId false)
  end.

(** The first [try] of the handler: the event, then the second [save]. *)
Definition integraciones (nuevaCita : Cita) : Prog Response :=
  await r <- CalendarEventsInsert nuevaCita;;
  match r with
  | Ok googleEventId =>
      let nuevaCita' := setEventId (Some googleEventId) nuevaCita in
      await _ <- CitaSave false nuevaCita';;
      enviarSMS nuevaCita' (Some googleEventId)
  | Throw _ => enviarSMS nuevaCita None
  end.

Definition guardar (nuevaCita : Cita) : Prog Response :=
  await r <- CitaSave true nuevaCita;;
  match r with
  | Throw e => Ret (catchCrear e)
  | Ok _ => integraciones nuevaCita
  end.

Definition reservar (d : Draft) (now : Z) : Prog Response :=
  await r <- CitaFindOne (d_fecha d) (d_horario d);;
  match r with
  | Throw e => Ret (catchCrear e)
  | Ok (Some citaExistente) => Ret horarioOcupado
  | Ok None =>
      await nuevaCita <- CitaNew d now;;
      guardar nuevaCita
  end.

(** [app.post('/api/appointments', [...], handler)], at the instant [now]. *)
Definition postAppointments (now : Z) (b : ReqBody) : Prog Response :=
  let errores := validationResult tz now b in
  if negb (isEmpty errores)
  then Ret (mkResp 400
              (BodyError "Datos inválidos"
                 "Por favor verifica que todos los campos estén correctos" errores))
  else reservar (sanitized b) now.

(** [app.patch('/api/appointments/:id/cancel')] *)
Definition cancelada_ok (cita : Cita) : Response :=
  mkResp 200 (BodyCancelada (_id cita) (estado cita)).

Definition patchCancel (id : ObjectId) : Prog Response :=
  await r <- CitaFindByIdAndUpdate id;;
  match r with
  | Throw _ => Ret (errorDelServidor "No se pudo cancelar la cita")
  | Ok None =>
      Ret (mkResp 404
             (BodyError "Cita no encontrada"
                "La cita que intentas cancelar no existe" []))
  | Ok (Some cita) =>
      if notNot (googleCalendarEventId cita)
      then
        match googleCalendarEventId cita with
        | Some ev => await _ <- CalendarEventsDelete ev;; Ret (cancelada_ok cita)
        | None => Ret (cancelada_ok cita)
        end
      else Ret (cancelada_ok cita)
  end.
End Handlers.

(** ** A reference platform

    An instance of [Platform] on which the handlers can be evaluated: ASCII
    white space and letter case, lengths in characters, the e-mail test of
    the front end's own form check ([/^[^\s@]+@[^\s@]+\.[^\s@]+$/]), and the
    date-only form [YYYY-MM-DD] of ISO 8601, which [Date.parse] reads as
    midnight UTC of that day. *)
Module Reference.

Definition isSpace (c : ascii) : bool :=
  let n := nat_of_ascii c in
  ((9 <=? n) && (n <=? 13))%nat || (n =? 32)%nat.

Fixpoint trimStart (s : string) : string :=
  match s with
  | String c r => if isSpace c then trimStart r else s
  | EmptyString => EmptyString
  end.

Fixpoint rev_string (acc s : string) : string :=
  match s with
  | EmptyString => acc
  | String c r => rev_string (String c acc) r
  end.

Definition trim (s : string) : string :=
  rev_string "" (trimStart (rev_string "" (trimStart s))).

Definition lowerChar (c : ascii) : ascii :=
  let n := nat_of_ascii c in
  if ((65 <=? n) && (n <=? 90))%nat then ascii_of_nat (n + 32) else c.

Fixpoint toLowerCase (s : string) : string :=
  match s with
  | EmptyString => EmptyString
  | String c r => String (lowerChar c) (toLowerCase r)
  end.

Definition isLength (s : string) (min max : nat) : bool :=
  ((min <=? String.length s) && (String.length s <=? max))%nat.

(** [[^\s@]+] on the whole of [s] *)
Fixpoint plainPart (s : string) : bool :=
  match s with
  | EmptyString => false
  | String c r =>
      negb (isSpace c) && negb (Ascii.eqb c "@")
      && match r with EmptyString => true | _ => plainPart r end
  end.

(** some split [s = a ++ sep :: b] has [a] and [b] accepted *)
Fixpoint splitsAt (sep : ascii) (okl okr : string -> bool) (pre s : string) : bool :=
  match s with
  | EmptyString => false
  | String c r =>
      (Ascii.eqb c sep && okl (rev_string "" pre) && okr r)
      || splitsAt sep okl okr (String c pre) r
  end.

Definition isEmail (s : string) : bool :=
  splitsAt "@" plainPart (splitsAt "." plainPart plainPart "") "" s.

Fixpoint digits (acc : Z) (s : string) : option Z :=
  match s with
  | EmptyString => Some acc
  | String c r =>
      if isDigit c then digits (10 * acc + (Z.of_nat (nat_of_ascii c) - 48)) r
      else None
  end.

(** Days from 1970-01-01 to the civil date [y-m-d] (proleptic Gregorian). *)
Definition daysFromCivil (y m d : Z) : Z :=
  let y' := if m <=? 2 then y - 1 else y in
  let era := y' / 400 in
  let yoe := y' - era * 400 in
  let mp := (m + 9) mod 12 in
  let doy := (153 * mp + 2) / 5 + d - 1 in
  let doe := yoe * 365 + yoe / 4 - yoe / 100 + doy in
  era * 146097 + doe - 719468.

Definition toDate (s : string) : option Z :=
  match s with
  | String y1 (String y2 (String y3 (String y4 (String "-"
      (String m1 (String m2 (String "-" (String d1 (String d2 EmptyString))))))))) =>
      match digits 0 (String y1 (String y2 (String y3 (String y4 ""))))%string,
            digits 0 (String m1 (String m2 ""))%string,
            digits 0 (String d1 (String d2 ""))%string with
      | Some y, Some m, Some d =>
          if (1 <=? m) && (m <=? 12) && (1 <=? d)
             && (daysFromCivil y m d <? daysFromCivil (y + m / 12) (m mod 12 + 1) 1)
          then Some (daysFromCivil y m d * msPerDay)
          else None
      | _, _, _ => None
      end
  | _ => None
  end.

Definition isISO8601 (s : string) : bool :=
  match toDate s with Some _ => true | None => false end.

Definition platform : Platform :=
  Build_Platform trim toLowerCase isLength isEmail toLowerCase isISO8601 toDate.

End Reference.

#[global] Existing Instance Reference.platform.


(** ** Two requests at once *)

Section Scheduler.
Context {P : Platform}.

(** One turn of the event loop for a request: the operation it awaits is
    performed, atomically, and its continuation becomes the request. *)
Definition step (env : Env) {R : Type} (p : Prog R) (w : World) : Prog R * World :=
  match p with
  | Ret r => (Ret r, w)
  | Vis op k => let (a, w') := exec env op w in (k a, w')
  end.

(** The two requests take turns as [sched] says ([true]: the first). *)
Fixpoint interleave (sched : list bool) (e1 e2 : Env) {R : Type}
         (p1 p2 : Prog R) (w : World) : Prog R * Prog R * World :=
  match sched with
  | [] => (p1, p2, w)
  | true :: s => let (p1', w') := step e1 p1 w in interleave s e1 e2 p1' p2 w'
  | false :: s => let (p2', w') := step e2 p2 w in interleave s e1 e2 p1 p2' w'
  end.

(** After the schedule, what is left of each request runs to its response. *)
Definition concurrent (sched : list bool) (e1 e2 : Env) {R : Type}
           (p1 p2 : Prog R) (w : World) : R * R * World :=
  let '(p1', p2', w') := interleave sched e1 e2 p1 p2 w in
  let (r1, w1) := run e1 p1' w' in
  let (r2, w2) := run e2 p2' w1 in
  (r1, r2, w2).
End Scheduler.

(** ** The vocabulary of the properties *)

Section Vocabulary.
Context {P : Platform}.
Variable tz : Z.

Definition campos : list string :=
  [ "nombreCompleto"; "email"; "telefono"; "tipoServicio"; "fecha"; "horario" ].

(** Whether the rules of the chain of field [campo] all pass on [b]. *)
Definition campoValido (now : Z) (b : ReqBody) (campo : string) : bool :=
  if String.eqb campo "nombreCompleto" then isLength (trim (b_nombreCompleto b)) 2 100
  else if String.eqb campo "email" then isEmail (b_email b)
  else if String.eqb campo "telefono" then matchesTelefono (b_telefono b)
  else if String.eqb campo "tipoServicio" then isIn (b_tipoServicio b) servicios
  else if String.eqb campo "fecha"
       then isISO8601 (b_fecha b) && negb (timeValue (toDate (b_fecha b)) <? setHours0 tz now)
  else if String.eqb campo "horario" then isIn (b_horario b) horarios
  else true.

Definition datosInvalidos (errores : list ValidationError) : Response :=
  mkResp 400
    (BodyError "Datos inválidos"
       "Por favor verifica que todos los campos estén correctos" errores).

(** The date of a request is before today in one of two senses: either
    the instant asked for is on an earlier day of the server's calendar, or
    it is the midnight UTC of a calendar date before the server's date. *)
Definition antesDeHoy (now t : Z) : Prop :=
  localDay tz t < localDay tz now
  \/ (tz < msPerDay /\ exists d, t = d * msPerDay /\ d < localDay tz now).

(** The world once [nuevaCita] has been constructed and inserted. *)
Definition insertada (c : Cita) (w : World) : World :=
  mkWorld (citas w ++ [c]) (N.succ (nextId w)) (calls w).

(** The response [r] is the success of the request [d], and the appointment
    of [d] is the one the collection holds for the slot. *)
Definition gana (d : Draft) (now : Z) (r : Response) (w : World) : Prop :=
  exists c,
    filter (sameSlot (d_fecha d) (d_horario d)) (citas w) = [c]
    /\ setEventId None c = newCita (_id c) d now
    /\ status r = 201
    /\ exists g s, body r = BodyCreada (_id c) (nombreCompleto c) (fecha c)
                              (horario c) (tipoServicio c) g s.

End Vocabulary.

(** The slot [(f, h)] is free in the index [{fecha: 1, horario: 1}]. *)
Definition libre (f : Z) (h : string) (w : World) : Prop :=
  existsb (sameSlot f h) (citas w) = false.

(** What the two collaborators answered, as the response reports it. *)
Definition googleEventIdOf (env : Env) : option string :=
  match calendar_insert env with Ok ev => Some ev | Throw _ => None end.

Definition smsEnviadoOf (env : Env) : bool :=
  match twilio_create env with Ok _ => true | Throw _ => false end.

(** *** The states of a race for the slot [(f, h)] *)

Section RaceStates.
Context {P : Platform}.
Variables (f : Z) (h : string).
Variables (d1 d2 : Draft) (now1 now2 : Z).

(** Where a request is before its insertion has been tried. *)
Definition pendiente (d : Draft) (now : Z) (p : Prog Response) : Prop :=
  p = reservar d now
  \/ p = (await nuevaCita <- CitaNew d now;; guardar nuevaCita)
  \/ exists id, p = guardar (newCita id d now).

Definition perdida (p : Prog Response) : Prop := p = Ret horarioOcupado.

Definition igualSalvoEvento (c' c : Cita) : Prop :=
  setEventId None c' = setEventId None c.

(** Where a request is once its insertion has succeeded with [c]. *)
Definition ganando (c : Cita) (p : Prog Response) : Prop :=
  p = integraciones c
  \/ (exists c' ev, igualSalvoEvento c' c
        /\ p = (await _ <- CitaSave false c';; enviarSMS c' (Some ev)))
  \/ (exists c' g, igualSalvoEvento c' c /\ p = enviarSMS c' g)
  \/ (exists c' g s, igualSalvoEvento c' c /\ p = Ret (creada c' g s)).

(** The collection holds, for the slot, the appointment [c] and no other. *)
Definition tomada (c : Cita) (w : World) : Prop :=
  map (setEventId None) (filter (sameSlot f h) (citas w)) = [setEventId None c].

(** Nobody has inserted yet and the slot is free, or exactly one of the two
    requests has inserted, the slot holds its appointment, and the other
    request has lost or is on its way to losing. *)
Definition carrera (p1 p2 : Prog Response) (w : World) : Prop :=
  (pendiente d1 now1 p1 /\ pendiente d2 now2 p2 /\ libre f h w)
  \/ (exists id, ganando (newCita id d1 now1) p1
                 /\ (pendiente d2 now2 p2 \/ perdida p2)
                 /\ tomada (newCita id d1 now1) w)
  \/ (exists id, ganando (newCita id d2 now2) p2
                 /\ (pendiente d1 now1 p1 \/ perdida p1)
                 /\ tomada (newCita id d2 now2) w).

End RaceStates.

(** What the specification asks of the list of occupied slots: the (date,
    slot) pairs of the appointments with status confirmed and date, a day
    number, no earlier than the day [hoy]. *)
Definition spec_listOccupiedSlots (hoy : Z) (l : list Cita) : list (Z * string) :=
  map (fun c => (fecha c, horario c))
      (filter (fun c => Estado_eqb (estado c) confirmada
                        && (hoy <=? fecha c / msPerDay)) l).

(** ** A scenario on the reference platform *)

Module Escenario.
(** America/El_Salvador: UTC-6. *)
Definition tzElSalvador : Z := -6 * msPerHour.

(** 2030-05-10T15:00:00Z, nine in the morning at the clinic. *)
Definition ahora : Z := 22044 * msPerDay + 15 * msPerHour.

(** 2030-05-11T01:00:00Z: the same day at the clinic, seven in the evening. *)
Definition estaTarde : Z := 22045 * msPerDay + 1 * msPerHour.

Definition ana : ReqBody :=
  mkBody "Ana Lopez" "ana@example.com" "+50370001111" "limpieza-dental"
         "2030-05-20" "09:00".

Definition luis : ReqBody :=
  mkBody "Luis Perez" "luis@example.com" "+50370002222" "ortodoncia"
         "2030-05-20" "09:00".

(** A request for the next day of the clinic's calendar, made at [estaTarde]. *)
Definition paraManana : ReqBody :=
  mkBody "Ana Lopez" "ana@example.com" "+50370001111" "limpieza-dental"
         "2030-05-11" "09:00".

(** Every field breaks its rule. *)
Definition malo : ReqBody :=
  mkBody "A" "sin-arroba" "70001111" "blanqueamiento" "2020-01-01" "12:00".

Definition sinFallos : Env :=
  mkEnv None None None None None (Ok "evt-1") (Ok tt) (Ok tt).

(** Google Calendar and Twilio both fail. *)
Definition sinIntegraciones : Env :=
  mkEnv None None None None None (Throw (mkError None)) (Throw (mkError None))
        (Throw (mkError None)).

(** The event is created, the [save] that attaches it fails. *)
Definition sinAdjuntar : Env :=
  mkEnv None None None (Some (mkError None)) None (Ok "evt-1") (Ok tt) (Ok tt).

Definition vacio : World := mkWorld [] 1 [].

(** The world once Ana's appointment is booked. *)
Definition conAna : World :=
  Eval vm_compute in
    snd (run sinFallos (postAppointments tzElSalvador ahora ana) vacio).

(** A collection with an appointment already attended. *)
Definition conCompletada : World :=
  mkWorld [ mkCita 7 "Ana Lopez" "ana@example.com" "+50370001111" "limpieza-dental"
              (22000 * msPerDay) "09:00" completada None (21990 * msPerDay) ]
          8 [].
End Escenario.

Import Escenario.

(** ** The rest of the server: histories, the administrative listing *)

(** One request to one of the three routes above. *)
Inductive Peticion : Type :=
| PedirOcupadas (now : Z)
| PedirReserva (now : Z) (b : ReqBody)
| PedirCancelacion (id : ObjectId).

(** The key of the unique index [{fecha: 1, horario: 1}]. *)
Definition slotKey (c : Cita) : Z * string := (fecha c, horario c).

(** The collection satisfies the unique index. *)
Definition indiceUnico (w : World) : Prop := NoDup (map slotKey (citas w)).

(** What of a document no handler writes after its insertion: everything but
    [estado] and [googleCalendarEventId]. *)
Definition datos (c : Cita) : Cita := setEstado confirmada (setEventId None c).

(** [c'] is a later state of the document [c]. *)
Definition sucede (c c' : Cita) : Prop :=
  datos c' = datos c /\ (estado c' = estado c \/ estado c' = cancelada).

(** [w'] is a later state of the collection of [w]: the documents of [w], in
    their order, each in a later state, followed by new documents. *)
Definition evoluciona (w w' : World) : Prop :=
  exists l extra, citas w' = (l ++ extra)%list /\ Forall2 sucede (citas w) l.

Definition esCompletada (c : Cita) : bool := Estado_eqb (estado c) completada.

(** The calls a cancellation makes to Google Calendar for the document it
    found: one, when the document carries a non-empty event identifier. *)
Definition borradoDe (c : Cita) : list Call :=
  match googleCalendarEventId c with
  | Some ev => if truthy ev then [CalledCalendarDelete ev] else []
  | None => []
  end.

(** The order of [.sort({ fecha: 1, horario: 1 })]: dates by their time
    value, then slots as strings, byte by byte. *)
Definition slotLeb (a b : Cita) : bool :=
  (fecha a <? fecha b) || ((fecha a =? fecha b) && String.leb (horario a) (horario b)).

Fixpoint insertar (c : Cita) (l : list Cita) : list Cita :=
  match l with
  | [] => [c]
  | x :: r => if slotLeb c x then c :: l else x :: insertar c r
  end.

Fixpoint ordenar (l : list Cita) : list Cita :=
  match l with
  | [] => []
  | c :: r => insertar c (ordenar r)
  end.

(** The answer of [GET /api/appointments]: the documents, or an error. *)
Inductive Listado : Type :=
| ListadoCitas (l : list Cita)
| ListadoError (status_ : Z) (error mensaje : string).

(** [app.get('/api/appointments')]: a single [await], of [Cita.find()]
    sorted; the route has its own body, the whole documents. *)
Definition getAppointments (env : Env) (w : World) : Listado * World :=
  match find_fault env with
  | Some _ =>
      (ListadoError 500 "Error del servidor" "No se pudieron cargar las citas", w)
  | None => (ListadoCitas (ordenar (citas w)), w)
  end.

Section Histories.
Context {P : Platform}.
Variable tz : Z.

Definition atender (p : Peticion) : Prog Response :=
  match p with
  | PedirOcupadas now => getOccupied now
  | PedirReserva now b => postAppointments tz now b
  | PedirCancelacion id => patchCancel id
  end.

(** The world after the requests of [h], served one after the other, each
    under its environment. *)
Fixpoint historia (h : list (Env * Peticion)) (w : World) : World :=
  match h with
  | [] => w
  | (env, p) :: r => historia r (snd (run env (atender p) w))
  end.
End Histories.

(** ** The helpers of the server: texts, the calendar event, the message *)

(** A JavaScript number as [parseInt] returns it: not a number, an integer
    that a double holds exactly, or a value beyond those (an integer of
    2^53 or more in magnitude, an infinity), about which the model says
    nothing. *)
Inductive Numero : Type :=
| NaN
| Entero (n : Z)
| FueraDeRango.

(** The built-in functions the helpers call.  [numberToString n] is
    [String(n)] for an integer [n]; [toLocaleDateString_es n] is
    [toLocaleDateString('es-ES', {year: 'numeric', month: 'long', day:
    'numeric'})] of a date whose day, in the zone of the process, is day
    number [n] (days since 1970-01-01). *)
Class Builtins : Type := {
  parseInt : string -> Numero;
  numberToString : Z -> string;
  toLocaleDateString_es : Z -> string
}.

(** [s.split(sep)] for a separator of one character. *)
Fixpoint split (sep : ascii) (s : string) : list string :=
  match s with
  | EmptyString => [EmptyString]
  | String c r =>
      if Ascii.eqb c sep then EmptyString :: split sep r
      else match split sep r with
           | x :: xs => String c x :: xs
           | [] => [String c EmptyString]
           end
  end.

(** [`${v}`] for [v] a string or [undefined]. *)
Definition textoDe (v : option string) : string :=
  match v with Some s => s | None => "undefined" end.

Definition nl : string := String (ascii_of_nat 10) EmptyString.

(** The table of [formatearServicio]. *)
Definition nombresDeServicio : list (string * string) :=
  [ ("limpieza-dental", "Limpieza Dental");
    ("ortodoncia", "Ortodoncia");
    ("extracciones", "Extracciones");
    ("implantes", "Implantes");
    ("carillas", "Carillas");
    ("diseño-sonrisa", "Diseño de Sonrisa");
    ("radiografia", "Radiografía");
    ("protesis-dentales", "Prótesis Dentales") ].

(** The properties an object literal inherits from [Object.prototype]: a
    lookup of one of these keys finds a function or an object, not
    [undefined]. *)
Definition heredadas : list string :=
  [ "constructor"; "__proto__"; "hasOwnProperty"; "isPrototypeOf";
    "propertyIsEnumerable"; "toLocaleString"; "toString"; "valueOf";
    "__defineGetter__"; "__defineSetter__"; "__lookupGetter__"; "__lookupSetter__" ].

Fixpoint buscar (k : string) (t : list (string * string)) : option string :=
  match t with
  | [] => None
  | (k', v) :: r => if String.eqb k k' then Some v else buscar k r
  end.

(** What [formatearServicio] returns: a text, or the inherited property the
    lookup has found. *)
Inductive Mostrado : Type :=
| Texto (s : string)
| Heredada (clave : string).

(** [servicios[servicio] || servicio] *)
Definition formatearServicio (servicio : string) : Mostrado :=
  match buscar servicio nombresDeServicio with
  | Some nombre => Texto nombre
  | None => if isIn servicio heredadas then Heredada servicio else Texto servicio
  end.

Section Helpers.
Context {B : Builtins}.

(** [formatearHora] of the server; [None] where [parseInt] leaves the
    integers a double holds exactly. *)
Definition formatearHora (hora : string) : option string :=
  let partes := split ":" hora in
  let horas := hd EmptyString partes in
  let minutos := nth_error partes 1 in
  match parseInt horas with
  | FueraDeRango => None
  | NaN => Some ("NaN" ++ ":" ++ textoDe minutos ++ " " ++ "PM")
  | Entero horaNum =>
      let ampm := if horaNum <? 12 then "AM" else "PM" in
      let horaFormateada := if 12 <? horaNum then horaNum - 12 else horaNum in
      Some (numberToString horaFormateada ++ ":" ++ textoDe minutos ++ " " ++ ampm)
  end.
End Helpers.

(** The time of day of a slot ["HH:MM"], in milliseconds, as [Date.parse]
    reads it in [YYYY-MM-DDTHH:MM:00.000Z]. *)
Definition horaDelDia (h : string) : option Z :=
  match h with
  | String h1 (String h2 (String ":" (String m1 (String m2 EmptyString)))) =>
      if isDigit h1 && isDigit h2 && isDigit m1 && isDigit m2 then
        let hh := 10 * (Z.of_nat (nat_of_ascii h1) - 48) + (Z.of_nat (nat_of_ascii h2) - 48) in
        let mm := 10 * (Z.of_nat (nat_of_ascii m1) - 48) + (Z.of_nat (nat_of_ascii m2) - 48) in
        if ((hh <? 24) && (mm <? 60)) || ((hh =? 24) && (mm =? 0))
        then Some (hh * msPerHour + mm * 60000) else None
      else None
  | _ => None
  end.

Record Recordatorio : Type := mkRecordatorio { method : string; minutes : Z }.

(** The clock of the process.  [setHoursMasUna t] is the time value of a
    [Date] of time value [t] after [d.setHours(d.getHours() + 1)]: the instant
    at which the wall clock of the zone of the process shows the hour after
    the one it shows at [t], with the same minutes.  In a zone whose offset
    does not change it is one hour after [t]; across a change of the clocks
    it is not. *)
Class Reloj : Type := {
  setHoursMasUna : Z -> Z
}.

(** The resource given to [calendar.events.insert]; a [dateTime], the ISO
    form of an instant, is that instant. *)
Record Evento : Type := mkEvento {
  summary : string;
  description : string;
  start_dateTime : Z;
  start_timeZone : string;
  end_dateTime : Z;
  end_timeZone : string;
  attendees : list string;
  reminders_useDefault : bool;
  reminders_overrides : list Recordatorio
}.

Section CalendarEvent.
Context {R : Reloj}.

(** The event of [crearEventoGoogleCalendar], for a document that passes the
    schema (its slot and its service are of the two [enum] lists), as every
    document given to the function is; [None] for any other.

    [cita.fecha.toISOString().split('T')[0]] is the UTC date of the instant
    [fecha]; with [T], the slot and [:00.000Z] it reads as that date at the
    time of the slot, UTC.  The end is the start moved by
    [setHours(getHours() + 1)], on the clock of the process. *)
Definition eventoDe (cita : Cita) : option Evento :=
  if isIn (horario cita) horarios && isIn (tipoServicio cita) servicios then
    match horaDelDia (horario cita), formatearServicio (tipoServicio cita) with
    | Some ms, Texto servicio =>
        let fechaHora := (fecha cita / msPerDay) * msPerDay + ms in
        let fechaFin := setHoursMasUna fechaHora in
        let sangria := "                " in
        Some {| summary := "Cita Dental - " ++ nombreCompleto cita;
                description :=
                  nl ++ sangria ++ "Paciente: " ++ nombreCompleto cita
                  ++ nl ++ sangria ++ "Email: " ++ email cita
                  ++ nl ++ sangria ++ "Teléfono: " ++ telefono cita
                  ++ nl ++ sangria ++ "Servicio: " ++ servicio
                  ++ nl ++ "            ";
                start_dateTime := fechaHora;
                start_timeZone := "America/El_Salvador";
                end_dateTime := fechaFin;
                end_timeZone := "America/El_Salvador";
                attendees := [email cita];
                reminders_useDefault := false;
                reminders_overrides :=
                  [mkRecordatorio "email" (24 * 60); mkRecordatorio "popup" 60] |}
    | _, _ => None
    end
  else None.
End CalendarEvent.

Section Message.
Context {B : Builtins}.
Variable tz : Z.

(** The body of the message of [enviarSMSConfirmacion], for a document that
    passes the schema; [None] for any other.  The date is written for the
    day on which the instant [fecha] falls in the zone of the server. *)
Definition mensajeSMS (cita : Cita) : option string :=
  if isIn (horario cita) horarios && isIn (tipoServicio cita) servicios then
    match formatearHora (horario cita), formatearServicio (tipoServicio cita) with
    | Some hora, Texto servicio =>
        let fechaFormateada := toLocaleDateString_es (localDay tz (fecha cita)) in
        Some ("¡Cita confirmada! 🦷" ++ nl ++ nl
              ++ "📅 Fecha: " ++ fechaFormateada ++ nl
              ++ "🕐 Hora: " ++ hora ++ nl
              ++ "🔧 Servicio: " ++ servicio ++ nl ++ nl
              ++ "Para cancelar cita, llama al 74676260" ++ nl ++ nl
              ++ "¡Te esperamos!")
    | _, _ => None
    end
  else None.
End Message.

(** ** The form: [SistemaCitas] *)

(** Day of the week of day number [n]: 0 is Sunday; 1970-01-01 was a
    Thursday. *)
Definition diaDeLaSemana (n : Z) : Z := (n + 4) mod 7.

(** The built-in functions the form calls, in the browser: [longitud s] is
    [s.length]; [emailRegexTest] is [/^[^\s@]+@[^\s@]+\.[^\s@]+$/.test];
    [dateParse s] is the time value of [new Date(s)], [None] for an invalid
    date; [isoDate t] is [new Date(t).toISOString().split('T')[0]]. *)
Class Navegador : Type := {
  longitud : string -> nat;
  emailRegexTest : string -> bool;
  dateParse : string -> option Z;
  isoDate : Z -> string
}.

Module SistemaCitas.

(** [e.target.value.replace(/[^0-9]/g, '')], the listener of the telephone
    field. *)
Fixpoint soloDigitos (s : string) : string :=
  match s with
  | EmptyString => EmptyString
  | String c r => if isDigit c then String c (soloDigitos r) else soloDigitos r
  end.

(** [`+503${formData.get('telefono')}`] *)
Definition telefonoEnviado (campo : string) : string := "+503" ++ campo.

Record Datos : Type := mkDatos {
  nombreCompleto_ : string;
  email_ : string;
  telefono_ : string;
  tipoServicio_ : string;
  fecha_ : string;
  horario_ : string
}.

Section Form.
Context {B : Builtins} {Nav : Navegador}.

(** [formatearHora] of the form: midnight is twelve. *)
Definition formatearHora (hora : string) : option string :=
  let partes := split ":" hora in
  let horas := hd EmptyString partes in
  let minutos := nth_error partes 1 in
  match parseInt horas with
  | FueraDeRango => None
  | NaN => Some ("NaN" ++ ":" ++ textoDe minutos ++ " " ++ "PM")
  | Entero horaNum =>
      let ampm := if horaNum <? 12 then "AM" else "PM" in
      let horaFormateada :=
        if 12 <? horaNum then horaNum - 12
        else if horaNum =? 0 then 12 else horaNum in
      Some (numberToString horaFormateada ++ ":" ++ textoDe minutos ++ " " ++ ampm)
  end.

(** [validarFormulario], in a browser of zone [tz] at the instant [now], with
    the cached list [citasOcupadas]: the message shown, or [None] when the
    form is valid ([return true]). *)
Definition validarFormulario (tz now : Z) (citasOcupadas : list Ocupada)
           (datos : Datos) : option string :=
  if (longitud (nombreCompleto_ datos) <? 2)%nat then
    Some "El nombre completo debe tener al menos 2 caracteres."
  else if negb (emailRegexTest (email_ datos)) then
    Some "Por favor ingresa un email válido."
  else if negb (matchesTelefono (telefono_ datos)) then
    Some "El número de teléfono debe tener exactamente 8 dígitos."
  else
    let fechaCita := dateParse (fecha_ datos) in
    let hoy := setHours0 tz now in
    if match fechaCita with Some t => t <? hoy | None => false end then
      Some "No puedes agendar una cita en una fecha pasada."
    else if match fechaCita with
            | Some t => diaDeLaSemana (localDay tz t) =? 0
            | None => false
            end then
      Some "No se pueden agendar citas los domingos."
    else if existsb (fun cita =>
                       String.eqb (isoDate (o_fecha cita)) (fecha_ datos)
                       && String.eqb (o_horario cita) (horario_ datos))
                    citasOcupadas then
      Some "Lo sentimos, la fecha y hora ya fue reservada por alguien más. Intenta de nuevo."
    else None.
End Form.
End SistemaCitas.

(** *** Reference built-ins, for ASCII texts and small numbers *)

Module ReferenceBuiltins.

Fixpoint decimalDigits (acc : Z) (seen : bool) (s : string) : option Z :=
  match s with
  | String c r =>
      if isDigit c then decimalDigits (10 * acc + (Z.of_nat (nat_of_ascii c) - 48)) true r
      else if seen then Some acc else None
  | EmptyString => if seen then Some acc else None
  end.

(** [parseInt] on decimal texts: leading ASCII white space, a sign, digits;
    beyond 2^53 the result is out of the model, as is a text that begins
    [0x], read in base sixteen. *)
Definition parseInt (s : string) : Numero :=
  let s1 := Reference.trimStart s in
  let signed (neg : bool) (r : string) : Numero :=
    match r with
    | String "0" (String "x" _) | String "0" (String "X" _) => FueraDeRango
    | _ =>
        match decimalDigits 0 false r with
        | Some n => if n <? 2 ^ 53 then Entero (if neg then - n else n) else FueraDeRango
        | None => NaN
        end
    end in
  match s1 with
  | String "-" r => signed true r
  | String "+" r => signed false r
  | _ => signed false s1
  end.

Definition digitChar (n : Z) : ascii := ascii_of_nat (Z.to_nat n + 48).

Fixpoint decimalFuel (fuel : nat) (n : Z) (acc : string) : string :=
  match fuel with
  | O => acc
  | S f =>
      let acc' := String (digitChar (n mod 10)) acc in
      if n <? 10 then acc' else decimalFuel f (n / 10) acc'
  end.

(** [String(n)] for an integer below 10^21 in magnitude. *)
Definition numberToString (n : Z) : string :=
  if n <? 0 then "-" ++ decimalFuel 25 (- n) "" else decimalFuel 25 n "".

Definition meses : list string :=
  [ "enero"; "febrero"; "marzo"; "abril"; "mayo"; "junio"; "julio"; "agosto";
    "septiembre"; "octubre"; "noviembre"; "diciembre" ].

(** The civil date of day number [n]: year, month, day. *)
Definition civilFromDays (n : Z) : Z * Z * Z :=
  let z := n + 719468 in
  let era := z / 146097 in
  let doe := z - era * 146097 in
  let yoe := (doe - doe / 1460 + doe / 36524 - doe / 146096) / 365 in
  let y := yoe + era * 400 in
  let doy := doe - (365 * yoe + yoe / 4 - yoe / 100) in
  let mp := (5 * doy + 2) / 153 in
  let d := doy - (153 * mp + 2) / 5 + 1 in
  let m := if mp <? 10 then mp + 3 else mp - 9 in
  (if m <=? 2 then y + 1 else y, m, d).

Definition toLocaleDateString_es (n : Z) : string :=
  let '(y, m, d) := civilFromDays n in
  numberToString d ++ " de " ++ nth (Z.to_nat (m - 1)) meses "" ++ " de "
  ++ numberToString y.

Definition dosCifras (n : Z) : string :=
  if n <? 10 then "0" ++ numberToString n else numberToString n.

(** The date part of [toISOString], for the years 1000 to 9999. *)
Definition isoDate (t : Z) : string :=
  let '(y, m, d) := civilFromDays (t / msPerDay) in
  numberToString y ++ "-" ++ dosCifras m ++ "-" ++ dosCifras d.

Definition builtins : Builtins :=
  Build_Builtins parseInt numberToString toLocaleDateString_es.

(** The clock of a zone of constant offset, as America/El_Salvador is. *)
Definition relojSinCambios : Reloj := Build_Reloj (fun t => t + msPerHour).

Definition navegador : Navegador :=
  Build_Navegador String.length Reference.isEmail Reference.toDate isoDate.

End ReferenceBuiltins.

#[global] Existing Instance ReferenceBuiltins.builtins.
#[global] Existing Instance ReferenceBuiltins.navegador.
#[global] Existing Instance ReferenceBuiltins.relojSinCambios.

(** *** More of the scenario *)

Module Escenario2.

(** Ana's appointment, cancelled, and a confirmed appointment the day after. *)
Definition anaCancelada : Cita :=
  mkCita 1 "Ana Lopez" "ana@example.com" "+50370001111" "limpieza-dental"
         (22054 * msPerDay) "09:00" cancelada (Some "evt-1") ahora.

Definition deLuis : Cita :=
  mkCita 2 "Luis Perez" "luis@example.com" "+50370002222" "ortodoncia"
         (22055 * msPerDay) "10:00" confirmada None ahora.

Definition dosCitas : World := mkWorld [anaCancelada; deLuis] 3 [].

(** Ana's appointment as [conAna] holds it. *)
Definition deAna : Cita :=
  mkCita 1 "Ana Lopez" "ana@example.com" "+50370001111" "limpieza-dental"
         (22054 * msPerDay) "09:00" confirmada (Some "evt-1") ahora.

(** The store does not answer. *)
Definition sinAlmacen : Env :=
  mkEnv (Some (mkError None)) (Some (mkError None)) (Some (mkError None))
        (Some (mkError None)) (Some (mkError None))
        (Throw (mkError None)) (Throw (mkError None)) (Throw (mkError None)).

Definition unaHistoria : list (Env * Peticion) :=
  [ (sinFallos, PedirReserva ahora luis);
    (sinFallos, PedirCancelacion 1);
    (sinIntegraciones, PedirReserva estaTarde paraManana);
    (sinFallos, PedirOcupadas ahora) ].

(** What the form holds for Ana, for Monday 2030-05-20. *)
Definition datosDeAna : SistemaCitas.Datos :=
  SistemaCitas.mkDatos "Ana Lopez" "ana@example.com" "+50370001111"
                       "limpieza-dental" "2030-05-20" "09:00".

End Escenario2.

Import Escenario2.

(** ** The route parameter of the cancellation *)

(** The cast of a string to the type of [_id], which mongoose applies to the
    filter of [findByIdAndUpdate] before the query is sent; [None] when the
    string is not an identifier and the cast throws ([CastError]). *)
Class Mongoose : Type := {
  castObjectId : string -> option ObjectId
}.

Section CancelRoute.
Context {P : Platform} {M : Mongoose}.

(** [app.patch('/api/appointments/:id/cancel')] from [req.params.id], a
    string of the caller's choice: when it is not an identifier,
    [findByIdAndUpdate] rejects and the [catch] answers 500. *)
Definition patchCancelParam (id : string) : Prog Response :=
  match castObjectId id with
  | Some oid => patchCancel oid
  | None => Ret (errorDelServidor "No se pudo cancelar la cita")
  end.
End CancelRoute.

(** *** A reference cast: twenty-four hexadecimal digits *)

Module ReferenceMongoose.

Definition hexValue (c : ascii) : option N :=
  let n := N_of_ascii c in
  if ((48 <=? n) && (n <=? 57))%N then Some (n - 48)%N
  else if ((97 <=? n) && (n <=? 102))%N then Some (n - 87)%N
  else if ((65 <=? n) && (n <=? 70))%N then Some (n - 55)%N
  else None.

Fixpoint hexDigits (acc : N) (s : string) : option N :=
  match s with
  | EmptyString => Some acc
  | String c r =>
      match hexValue c with
      | Some v => hexDigits (16 * acc + v)%N r
      | None => None
      end
  end.

Definition castObjectId (s : string) : option ObjectId :=
  if (String.length s =? 24)%nat then hexDigits 0%N s else None.

Definition mongoose : Mongoose := Build_Mongoose castObjectId.

End ReferenceMongoose.

#[global] Existing Instance ReferenceMongoose.mongoose.

(** *** A reference platform that also reads a date with a time *)

(** [Reference.platform], with [isISO8601] and [toDate] extended to the form
    [YYYY-MM-DDTHH:MM:SSZ]. *)
Module ReferenceConHora.

Definition horaUTC (s : string) : option Z :=
  match s with
  | String "T" (String h1 (String h2 (String ":" (String m1 (String m2
      (String ":" (String s1 (String s2 (String "Z" EmptyString))))))))) =>
      match Reference.digits 0 (String h1 (String h2 ""))%string,
            Reference.digits 0 (String m1 (String m2 ""))%string,
            Reference.digits 0 (String s1 (String s2 ""))%string with
      | Some hh, Some mm, Some ss =>
          if (hh <? 24) && (mm <? 60) && (ss <? 60)
          then Some (hh * msPerHour + mm * 60000 + ss * 1000) else None
      | _, _, _ => None
      end
  | _ => None
  end.

Definition toDate (s : string) : option Z :=
  if (String.length s =? 10)%nat then Reference.toDate s
  else
    match Reference.toDate (substring 0 10 s),
          horaUTC (substring 10 (String.length s - 10) s) with
    | Some dia, Some hora => Some (dia + hora)
    | _, _ => None
    end.

Definition isISO8601 (s : string) : bool :=
  match toDate s with Some _ => true | None => false end.

Definition platform : Platform :=
  Build_Platform Reference.trim Reference.toLowerCase Reference.isLength
                 Reference.isEmail Reference.toLowerCase isISO8601 toDate.

End ReferenceConHora.

Module Escenario3.

(** Luis asks for the same day and slot as Ana, his date written with a time. *)
Definition luisAMediodia : ReqBody :=
  mkBody "Luis Perez" "luis@example.com" "+50370002222" "ortodoncia"
         "2030-05-20T12:00:00Z" "09:00".

(** The identifier of Ana's appointment, one that no appointment has, and a
    text that is not an identifier. *)
Definition idDeAna : string := "000000000000000000000001".
Definition idDesconocido : string := "000000000000000000000063".
Definition idMalFormado : string := "99".

End Escenario3.

Import Escenario3.

(** * Properties *)

(** ** The rules of the request validators, field by field *)

Section Rules.
Context {P : Platform}.
Variable tz : Z.

Lemma validationResult_params now b campo :
  In campo (map param (validationResult tz now b)) <->
  In campo campos /\ campoValido tz now b campo = false.
Proof.
  unfold validationResult, chain_nombreCompleto, chain_email, chain_telefono,
    chain_tipoServicio, chain_fecha, chain_horario, fechaEnElPasado, campoValido, campos.
  destruct (isLength (trim (b_nombreCompleto b)) 2 100);
    destruct (isEmail (b_email b));
    destruct (matchesTelefono (b_telefono b));
    destruct (isIn (b_tipoServicio b) servicios);
    destruct (isISO8601 (b_fecha b));
    destruct (timeValue (toDate (b_fecha b)) <? setHours0 tz now);
    destruct (isIn (b_horario b) horarios);
    cbn [app map param In andb negb];
    (split;
     [ intros H;
       repeat (destruct H as [H | H]; [ subst campo; cbn; tauto | ]);
       contradiction
     | intros [H Hv];
       repeat (destruct H as [H | H];
               [ subst campo; cbn in Hv; first [ discriminate Hv | tauto ] | ]);
       contradiction ]).
Qed.
End Rules.

(** ** Validation comes first *)

Section ValidationProperties.
Context {P : Platform}.
Variable tz : Z.

Lemma postAppointments_invalid now b :
  validationResult tz now b <> [] ->
  postAppointments tz now b = Ret (datosInvalidos (validationResult tz now b)).
Proof.
  intros H. unfold postAppointments, datosInvalidos.
  destruct (validationResult tz now b); [ contradiction | reflexivity ].
Qed.

Lemma postAppointments_valid now b :
  validationResult tz now b = [] ->
  postAppointments tz now b = reservar (sanitized b) now.
Proof. intros H. unfold postAppointments. rewrite H. reflexivity. Qed.

(** [fecha < hoy] holds exactly when the instant falls on a local day
    before the local day of [now]. *)
Lemma before_setHours0 now t :
  t < setHours0 tz now <-> localDay tz t < localDay tz now.
Proof.
  unfold setHours0, localDay, msPerDay.
  pose proof (Z.div_mod (t + tz) 86400000 ltac:(lia)) as E.
  pose proof (Z.mod_pos_bound (t + tz) 86400000 ltac:(lia)) as B.
  split; intros H; nia.
Qed.

(** A date-only string is read as midnight UTC of its day [d]; wherever the
    server is, less than a day east of Greenwich, that instant is on a local
    day no later than [d]. *)
Lemma localDay_of_utc_midnight d :
  tz < msPerDay -> localDay tz (d * msPerDay) <= d.
Proof.
  unfold localDay, msPerDay. intros H.
  assert ((d * 86400000 + tz) / 86400000 < d + 1); [ | lia ].
  apply Z.div_lt_upper_bound; lia.
Qed.

Lemma antesDeHoy_lt now t : antesDeHoy tz now t -> t < setHours0 tz now.
Proof.
  intros [H | (Htz & d & -> & Hd)]; apply before_setHours0; [ assumption | ].
  pose proof (localDay_of_utc_midnight d Htz). lia.
Qed.
End ValidationProperties.

Section ValidationClaims.
Context {P : Platform}.
Variable tz : Z.

(** C5.  A booking request in which the rules of at least one field fail is
    answered 400 with the list of errors, which names every field whose
    rules fail (and no other); the handler is then a bare response: it
    performs no operation, so the store and the collaborators are untouched,
    whatever the world and the environment are. *)
Theorem invalid_request_lists_every_failing_field :
  forall (env : Env) (now : Z) (b : ReqBody) (w : World),
    (exists campo, In campo campos /\ campoValido tz now b campo = false) ->
    exists errores,
      postAppointments tz now b = Ret (datosInvalidos errores)
      /\ run env (postAppointments tz now b) w = (datosInvalidos errores, w)
      /\ forall campo,
           In campo (map param errores) <->
           In campo campos /\ campoValido tz now b campo = false.
Proof.
  intros env now b w (campo & Hin & Hbad).
  exists (validationResult tz now b).
  assert (Hne : validationResult tz now b <> []).
  { intros E.
    assert (Hp : In campo (map param (validationResult tz now b)))
      by (apply validationResult_params; split; assumption).
    rewrite E in Hp. exact Hp. }
  rewrite (postAppointments_invalid tz now b Hne).
  split; [ reflexivity | ]. split; [ reflexivity | ].
  intros campo'. apply validationResult_params.
Qed.

(** C6.  A booking request whose date is before the server's current date
    is answered 400, with the error of the [fecha] field among the errors,
    whatever the other fields hold; nothing is done to the world. *)
Theorem past_date_is_a_validation_error :
  forall (env : Env) (now : Z) (b : ReqBody) (w : World) (t : Z),
    toDate (b_fecha b) = Some t ->
    antesDeHoy tz now t ->
    exists errores,
      run env (postAppointments tz now b) w = (datosInvalidos errores, w)
      /\ In (mkVErr "fecha" "La fecha no puede ser en el pasado") errores.
Proof.
  intros env now b w t Ht Hbefore.
  apply antesDeHoy_lt in Hbefore.
  assert (Hin : In (mkVErr "fecha" "La fecha no puede ser en el pasado")
                   (validationResult tz now b)).
  { unfold validationResult, chain_fecha, fechaEnElPasado.
    rewrite Ht. cbn [timeValue].
    apply Z.ltb_lt in Hbefore. rewrite Hbefore.
    do 4 (apply in_or_app; right).
    apply in_or_app; left. apply in_or_app; right. left. reflexivity. }
  exists (validationResult tz now b). split; [ | exact Hin ].
  rewrite postAppointments_invalid; [ reflexivity | ].
  intros E. rewrite E in Hin. exact Hin.
Qed.
End ValidationClaims.

(** ** Reservation and its side effects *)

Lemma find_confirmada_libre f h l :
  existsb (sameSlot f h) l = false ->
  find (fun c => sameSlot f h c && Estado_eqb (estado c) confirmada) l = None.
Proof.
  induction l as [ | c l IH ]; cbn; [ reflexivity | ].
  intros H. apply orb_false_iff in H as [Hc Hl].
  rewrite Hc. cbn. auto.
Qed.

Section Reservation.
Context {P : Platform}.
Variable tz : Z.

Lemma run_reservar_libre env d now w :
  findOne_fault env = None ->
  insert_fault env = None ->
  libre (d_fecha d) (d_horario d) w ->
  run env (reservar d now) w =
  run env (integraciones (newCita (nextId w) d now))
      (insertada (newCita (nextId w) d now) w).
Proof.
  intros Hf Hi Hfree. unfold libre in Hfree.
  unfold reservar. cbn [run exec]. rewrite Hf.
  rewrite (find_confirmada_libre _ _ _ Hfree).
  cbn [run exec guardar citas nextId calls newCita fecha horario].
  rewrite Hi, Hfree. reflexivity.
Qed.

(** The calendar step, whatever it does, is followed by the SMS step: both
    collaborators are called, in this order, and the response is 201. *)
Lemma run_integraciones env c w :
  exists w',
    run env (integraciones c) w =
      (creada c (googleEventIdOf env) (smsEnviadoOf env), w')
    /\ calls w' = (calls w ++ [CalledCalendarInsert (_id c);
                                CalledTwilioCreate (telefono c)])%list
    /\ nextId w' = nextId w
    /\ (citas w' = citas w
        \/ exists ev, calendar_insert env = Ok ev /\ update_fault env = None
                      /\ citas w' = updateFirst (hasId (_id c))
                                      (setEventId (Some ev)) (citas w)).
Proof.
  unfold integraciones, enviarSMS, googleEventIdOf, smsEnviadoOf.
  cbn [run exec].
  destruct (calendar_insert env) as [ev | e] eqn:Ecal;
    [ cbn [run exec]; destruct (update_fault env) as [e | ] eqn:Eup;
      [ | cbn [setEventId _id googleCalendarEventId logCall citas];
          destruct (existsb (hasId (_id c)) (citas w)) ] | ];
    cbn [run exec]; destruct (twilio_create env) as [u | e'];
    eexists; (split; [ reflexivity | ]);
    cbn [logCall setCitas citas nextId calls setEventId telefono _id];
    rewrite <- ?app_assoc; cbn [app];
    (split; [ reflexivity | ]); (split; [ reflexivity | ]);
    first [ left; reflexivity | right; eexists; repeat split; reflexivity ].
Qed.
End Reservation.

Lemma In_updateFirst_setEventId p v c l :
  In c l ->
  exists c', In c' (updateFirst p (setEventId v) l)
             /\ setEventId None c' = setEventId None c.
Proof.
  induction l as [ | x l IH ]; cbn; [ contradiction | ].
  intros [-> | H].
  - destruct (p c); eexists; (split; [ left; reflexivity | reflexivity ]).
  - destruct (p x).
    + exists c. split; [ right; assumption | reflexivity ].
    + destruct (IH H) as (c' & Hin & E). exists c'. split; [ right | ]; assumption.
Qed.

Section ReservationClaims.
Context {P : Platform}.
Variable tz : Z.

(** C3.  A valid booking request whose reservation persists (the store
    answers and the slot is free in the index) is answered 201 with the
    generated identifier and the two flags, each decided by its own
    collaborator; whatever the calendar and the SMS service answer, both
    are called, once each, and the appointment is in the store. *)
Theorem booking_succeeds_whatever_the_integrations_do :
  forall (env : Env) (now : Z) (b : ReqBody) (w : World),
    validationResult tz now b = [] ->
    findOne_fault env = None ->
    insert_fault env = None ->
    libre (d_fecha (sanitized b)) (d_horario (sanitized b)) w ->
    let c := newCita (nextId w) (sanitized b) now in
    exists r w',
      run env (postAppointments tz now b) w = (r, w')
      /\ status r = 201
      /\ body r = BodyCreada (nextId w) (nombreCompleto c) (fecha c) (horario c)
                    (tipoServicio c)
                    (notNot (googleEventIdOf env)) (smsEnviadoOf env)
      /\ calls w' = (calls w ++ [CalledCalendarInsert (nextId w);
                                 CalledTwilioCreate (telefono c)])%list
      /\ exists c', In c' (citas w') /\ setEventId None c' = c.
Proof.
  intros env now b w Hv Hf Hi Hfree c.
  rewrite (postAppointments_valid tz now b Hv).
  rewrite (run_reservar_libre env _ now Hf Hi Hfree). fold c.
  destruct (run_integraciones env c (insertada c w))
    as (w' & Hrun & Hcalls & _ & Hcitas).
  exists (creada c (googleEventIdOf env) (smsEnviadoOf env)), w'.
  split; [ exact Hrun | ]. split; [ reflexivity | ]. split; [ reflexivity | ].
  split; [ exact Hcalls | ].
  assert (Hin : In c (citas (insertada c w)))
    by (cbn; apply in_or_app; right; left; reflexivity).
  destruct Hcitas as [E | (ev & _ & _ & E)]; rewrite E.
  - exists c. split; [ exact Hin | reflexivity ].
  - apply (In_updateFirst_setEventId (hasId (_id c)) (Some ev)) in Hin.
    destruct Hin as (c' & Hin & Heq). exists c'. split; [ exact Hin | exact Heq ].
Qed.

(** C9.  When the calendar creates the event (and returns its identifier)
    but the [save] that attaches the identifier to the appointment fails,
    the booking is still answered 201 and the calendar flag is [true]; the
    stored appointment carries no calendar reference. *)
Theorem calendar_flag_reports_event_creation :
  forall (env : Env) (now : Z) (b : ReqBody) (w : World) (ev : string) (e : JsError),
    validationResult tz now b = [] ->
    findOne_fault env = None ->
    insert_fault env = None ->
    libre (d_fecha (sanitized b)) (d_horario (sanitized b)) w ->
    calendar_insert env = Ok ev ->
    truthy ev = true ->
    update_fault env = Some e ->
    let c := newCita (nextId w) (sanitized b) now in
    exists r w',
      run env (postAppointments tz now b) w = (r, w')
      /\ status r = 201
      /\ body r = BodyCreada (nextId w) (nombreCompleto c) (fecha c) (horario c)
                    (tipoServicio c) true (smsEnviadoOf env)
      /\ citas w' = (citas w ++ [c])%list
      /\ googleCalendarEventId c = None.
Proof.
  intros env now b w ev e Hv Hf Hi Hfree Hcal Htruthy Hup c.
  rewrite (postAppointments_valid tz now b Hv).
  rewrite (run_reservar_libre env _ now Hf Hi Hfree). fold c.
  destruct (run_integraciones env c (insertada c w))
    as (w' & Hrun & _ & _ & Hcitas).
  exists (creada c (googleEventIdOf env) (smsEnviadoOf env)), w'.
  split; [ exact Hrun | ]. split; [ reflexivity | ].
  split.
  - unfold creada, googleEventIdOf. rewrite Hcal. cbn [body notNot].
    rewrite Htruthy. reflexivity.
  - split; [ | reflexivity ].
    destruct Hcitas as [E | (ev' & _ & Hnone & _)]; [ exact E | ].
    rewrite Hup in Hnone. discriminate Hnone.
Qed.

(** C4.  A valid booking request for a slot that is taken is answered 409;
    and whenever a booking request is answered 409, no collaborator has
    been called and the collection of appointments is what it was. *)
Theorem slot_taken_has_no_side_effects :
  forall (env : Env) (now : Z) (b : ReqBody) (w : World),
    (validationResult tz now b = [] ->
     findOne_fault env = None ->
     insert_fault env = None ->
     ~ libre (d_fecha (sanitized b)) (d_horario (sanitized b)) w ->
     fst (run env (postAppointments tz now b) w) = horarioOcupado)
    /\ (status (fst (run env (postAppointments tz now b) w)) = 409 ->
        citas (snd (run env (postAppointments tz now b) w)) = citas w
        /\ calls (snd (run env (postAppointments tz now b) w)) = calls w).
Proof.
  intros env now b w. split.
  - intros Hv Hf Hi Htaken.
    rewrite (postAppointments_valid tz now b Hv).
    unfold reservar. cbn [run exec]. rewrite Hf.
    destruct (find _ (citas w)); [ reflexivity | ].
    cbn [run exec guardar newCita fecha horario citas]. rewrite Hi.
    unfold libre in Htaken.
    destruct (existsb _ (citas w)); [ reflexivity | congruence ].
  - unfold postAppointments.
    destruct (isEmpty (validationResult tz now b)); cbn [negb];
      [ | cbn; discriminate ].
    unfold reservar. cbn [run exec].
    destruct (findOne_fault env); [ cbn; auto | ].
    destruct (find _ (citas w)); [ cbn; auto | ].
    cbn [run exec guardar newCita fecha horario citas].
    destruct (insert_fault env); [ cbn; auto | ].
    destruct (existsb _ (citas w)); [ cbn; auto | ].
    match goal with
    | |- context [ run env (integraciones ?c) ?w0 ] =>
        destruct (run_integraciones env c w0) as (w' & Hrun & _)
    end.
    rewrite Hrun. cbn. discriminate.
Qed.
End ReservationClaims.

(** ** Cancellation *)

Lemma find_hasId_id id l c : find (hasId id) l = Some c -> _id c = id.
Proof.
  intros H. apply find_some in H as [_ H]. apply N.eqb_eq in H. exact H.
Qed.

Lemma find_hasId_none id l :
  find (hasId id) l = None <-> forall c, In c l -> _id c <> id.
Proof.
  split.
  - intros H c Hin E. pose proof (find_none _ _ H c Hin) as Hc.
    unfold hasId in Hc. apply N.eqb_neq in Hc. contradiction.
  - induction l as [ | x l IH ]; cbn; [ reflexivity | ].
    intros H. destruct (hasId id x) eqn:E.
    + apply N.eqb_eq in E. exfalso. apply (H x); [ left; reflexivity | exact E ].
    + apply IH. intros c Hin. apply H. right. exact Hin.
Qed.

Lemma find_updateFirst p f l c :
  find p l = Some c -> p (f c) = true ->
  find p (updateFirst p f l) = Some (f c).
Proof.
  induction l as [ | x l IH ]; cbn; [ discriminate | ].
  destruct (p x) eqn:E.
  - intros [= ->] Hf. cbn. rewrite Hf. reflexivity.
  - intros H Hf. cbn. rewrite E. auto.
Qed.

Lemma updateFirst_fixed p f l c :
  find p l = Some c -> f c = c -> updateFirst p f l = l.
Proof.
  induction l as [ | x l IH ]; cbn; [ reflexivity | ].
  destruct (p x) eqn:E.
  - intros [= ->] ->. reflexivity.
  - intros H Hf. f_equal. auto.
Qed.

Lemma setEstado_same c : setEstado (estado c) c = c.
Proof. destruct c. reflexivity. Qed.

Section Cancellation.
Context {P : Platform}.

(** The handler once [findByIdAndUpdate] has answered with a document. *)
Lemma run_patchCancel_found env id w c :
  findByIdAndUpdate_fault env = None ->
  find (hasId id) (citas w) = Some c ->
  exists w',
    run env (patchCancel id) w = (mkResp 200 (BodyCancelada id cancelada), w')
    /\ citas w' = updateFirst (hasId id) (setEstado cancelada) (citas w)
    /\ nextId w' = nextId w.
Proof.
  intros Hf Hc. unfold patchCancel. cbn [run exec]. rewrite Hf, Hc.
  pose proof (find_hasId_id _ _ Hc) as Hid.
  unfold cancelada_ok.
  cbn [setEstado googleCalendarEventId _id estado].
  destruct (googleCalendarEventId c) as [ev | ]; cbn [notNot];
    [ destruct (truthy ev) | ]; cbn [run exec];
    rewrite Hid; eexists; repeat split; reflexivity.
Qed.

Lemma run_patchCancel_unknown env id w :
  findByIdAndUpdate_fault env = None ->
  find (hasId id) (citas w) = None ->
  run env (patchCancel id) w =
  (mkResp 404 (BodyError "Cita no encontrada"
                 "La cita que intentas cancelar no existe" []), w).
Proof.
  intros Hf Hc. unfold patchCancel. cbn [run exec]. rewrite Hf, Hc. reflexivity.
Qed.

(** The handler on an identifier of the type of [_id]: while the store
    answers, it is answered 404 exactly when no stored appointment has the
    identifier; otherwise the appointment's status becomes [cancelada] and
    the answer carries the identifier and that status; an appointment that
    was already cancelled is answered the same way, and the collection is
    left as it was. *)
Lemma cancel_is_not_found_exactly_for_unknown_identifiers :
  forall (env : Env) (id : ObjectId) (w : World),
    findByIdAndUpdate_fault env = None ->
    exists r w',
      run env (patchCancel id) w = (r, w')
      /\ (status r = 404 <-> forall c, In c (citas w) -> _id c <> id)
      /\ (forall c, find (hasId id) (citas w) = Some c ->
            r = mkResp 200 (BodyCancelada id cancelada)
            /\ citas w' = updateFirst (hasId id) (setEstado cancelada) (citas w)
            /\ find (hasId id) (citas w') = Some (setEstado cancelada c))
      /\ (forall c, find (hasId id) (citas w) = Some c ->
            estado c = cancelada ->
            r = mkResp 200 (BodyCancelada id cancelada) /\ citas w' = citas w).
Proof.
  intros env id w Hf.
  destruct (find (hasId id) (citas w)) as [c | ] eqn:Hc.
  - destruct (run_patchCancel_found env id w Hf Hc) as (w' & Hrun & Hcitas & _).
    exists (mkResp 200 (BodyCancelada id cancelada)), w'.
    split; [ exact Hrun | ]. split.
    + split; [ cbn; discriminate | ].
      intros H. apply find_hasId_none in H. congruence.
    + split.
      * intros c' [= <-]. split; [ reflexivity | ]. split; [ exact Hcitas | ].
        rewrite Hcitas. apply find_updateFirst; [ exact Hc | ].
        apply find_some in Hc as [_ Hc]. exact Hc.
      * intros c' [= <-] Hest. split; [ reflexivity | ].
        rewrite Hcitas. apply (updateFirst_fixed _ _ _ Hc).
        rewrite <- Hest. apply setEstado_same.
  - rewrite (run_patchCancel_unknown env id w Hf Hc).
    eexists; eexists. split; [ reflexivity | ].
    split; [ | split; intros c; discriminate ].
    split; [ intros _; apply find_hasId_none; exact Hc | reflexivity ].
Qed.

(** C10.  Cancelling sets the status of an existing appointment to
    [cancelada] whatever its status was: [confirmada], [cancelada] or
    [completada]. *)
Theorem cancel_overwrites_any_status :
  forall (env : Env) (id : ObjectId) (w : World) (c : Cita) (previo : Estado),
    findByIdAndUpdate_fault env = None ->
    find (hasId id) (citas w) = Some c ->
    estado c = previo ->
    exists w' c',
      run env (patchCancel id) w = (mkResp 200 (BodyCancelada id cancelada), w')
      /\ find (hasId id) (citas w') = Some c'
      /\ estado c' = cancelada
      /\ setEstado previo c' = c.
Proof.
  intros env id w c previo Hf Hc Hest.
  destruct (run_patchCancel_found env id w Hf Hc) as (w' & Hrun & Hcitas & _).
  exists w', (setEstado cancelada c).
  split; [ exact Hrun | ]. split.
  - rewrite Hcitas. apply find_updateFirst; [ exact Hc | ].
    apply find_some in Hc as [_ Hc]. exact Hc.
  - split; [ reflexivity | ]. subst previo. destruct c. reflexivity.
Qed.
End Cancellation.

(** ** The list of occupied slots *)

Lemma status_catchCrear e :
  status (catchCrear e) = 409 \/ status (catchCrear e) = 500.
Proof.
  unfold catchCrear.
  destruct (match code e with Some n => n =? 11000 | None => false end);
    [ left | right ]; reflexivity.
Qed.

Section Occupied.
Context {P : Platform}.
Variable tz : Z.

(** A booking answered 201 has left in the collection a confirmed
    appointment for the date and the slot asked for. *)
Lemma created_is_stored env now b w r w' :
  run env (postAppointments tz now b) w = (r, w') ->
  status r = 201 ->
  exists c, In c (citas w')
            /\ fecha c = d_fecha (sanitized b)
            /\ horario c = d_horario (sanitized b)
            /\ estado c = confirmada.
Proof.
  unfold postAppointments.
  destruct (isEmpty (validationResult tz now b)); cbn [negb];
    [ | cbn; intros [= <- <-]; discriminate ].
  unfold reservar. cbn [run exec].
  assert (Hcatch : forall e, status (catchCrear e) <> 201)
    by (intros e; destruct (status_catchCrear e) as [E | E]; rewrite E; discriminate).
  destruct (findOne_fault env);
    [ cbn; intros [= <- <-] H; exfalso; exact (Hcatch _ H) | ].
  destruct (find _ (citas w)); [ cbn; intros [= <- <-]; discriminate | ].
  cbn [run exec guardar newCita fecha horario citas].
  destruct (insert_fault env);
    [ cbn; intros [= <- <-] H; exfalso; exact (Hcatch _ H) | ].
  destruct (existsb _ (citas w)); [ cbn; intros [= <- <-]; discriminate | ].
  match goal with
  | |- context [ run env (integraciones ?c) ?w0 ] =>
      destruct (run_integraciones env c w0) as (w1 & Hrun & _ & _ & Hcitas);
      assert (Hin : In c (citas w0))
        by (cbn; apply in_or_app; right; left; reflexivity);
      set (c0 := c) in *
  end.
  rewrite Hrun. intros [= <- <-] _.
  destruct Hcitas as [E | (ev & _ & _ & E)]; rewrite E.
  - exists c0. split; [ exact Hin | repeat split ].
  - apply (In_updateFirst_setEventId (hasId (_id c0)) (Some ev)) in Hin.
    destruct Hin as (c' & Hin & Heq). exists c'.
    split; [ exact Hin | ].
    destruct c'; cbn in Heq |- *. injection Heq as -> -> -> -> -> -> -> ->.
    repeat split.
Qed.
End Occupied.

Section Race.
Context {P : Platform}.
Variables (f : Z) (h : string).

Lemma filter_updateFirst_setEventId p v l :
  map (setEventId None) (filter (sameSlot f h) (updateFirst p (setEventId v) l))
  = map (setEventId None) (filter (sameSlot f h) l).
Proof.
  induction l as [ | x l IH ]; cbn [updateFirst]; [ reflexivity | ].
  destruct (p x).
  - cbn [filter].
    change (sameSlot f h (setEventId v x)) with (sameSlot f h x).
    destruct (sameSlot f h x); reflexivity.
  - cbn [filter]. destruct (sameSlot f h x); cbn [map]; rewrite IH; reflexivity.
Qed.

Lemma tomada_existsb c w : tomada f h c w -> existsb (sameSlot f h) (citas w) = true.
Proof.
  unfold tomada. induction (citas w) as [ | x l IH ]; cbn; [ discriminate | ].
  destruct (sameSlot f h x); [ reflexivity | exact IH ].
Qed.

Lemma libre_filter w : libre f h w -> filter (sameSlot f h) (citas w) = [].
Proof.
  unfold libre. induction (citas w) as [ | x l IH ]; cbn; [ reflexivity | ].
  destruct (sameSlot f h x); cbn; [ discriminate | exact IH ].
Qed.

Lemma step_pendiente_libre e d now p w :
  findOne_fault e = None -> insert_fault e = None ->
  d_fecha d = f -> d_horario d = h ->
  pendiente d now p -> libre f h w ->
  (pendiente d now (fst (step e p w)) /\ libre f h (snd (step e p w)))
  \/ exists id, ganando (newCita id d now) (fst (step e p w))
                /\ tomada f h (newCita id d now) (snd (step e p w)).
Proof.
  intros Hf Hi Hd Hh [-> | [-> | (id & ->)]] Hfree.
  - left. unfold reservar. cbn [step exec]. rewrite Hf, Hd, Hh.
    rewrite (find_confirmada_libre _ _ _ Hfree). cbn [fst snd].
    split; [ right; left; reflexivity | exact Hfree ].
  - left. cbn [step exec fst snd].
    split; [ right; right; eexists; reflexivity | exact Hfree ].
  - right. exists id. unfold guardar. cbn [step exec]. rewrite Hi.
    cbn [newCita fecha horario]. rewrite Hd, Hh.
    unfold libre in Hfree. rewrite Hfree. cbn [fst snd].
    split; [ left; reflexivity | ].
    unfold tomada. cbn [setCitas citas].
    rewrite filter_app, (libre_filter Hfree). cbn [app filter].
    change (sameSlot f h (newCita id d now))
      with ((d_fecha d =? f) && String.eqb (d_horario d) h).
    rewrite Hd, Hh, Z.eqb_refl, String.eqb_refl. reflexivity.
Qed.

Lemma step_pendiente_tomada e d now p w c :
  findOne_fault e = None -> insert_fault e = None ->
  d_fecha d = f -> d_horario d = h ->
  pendiente d now p \/ perdida p -> tomada f h c w ->
  (pendiente d now (fst (step e p w)) \/ perdida (fst (step e p w)))
  /\ tomada f h c (snd (step e p w)).
Proof.
  intros Hf Hi Hd Hh [[-> | [-> | (id & ->)]] | ->] Htaken.
  - unfold reservar. cbn [step exec]. rewrite Hf.
    destruct (find _ (citas w)); cbn [fst snd];
      (split; [ | exact Htaken ]);
      [ right; reflexivity | left; right; left; reflexivity ].
  - cbn [step exec fst snd]. split; [ left; right; right; eexists; reflexivity | ].
    exact Htaken.
  - unfold guardar. cbn [step exec]. rewrite Hi.
    cbn [newCita fecha horario]. rewrite Hd, Hh.
    rewrite (tomada_existsb Htaken). cbn [fst snd].
    split; [ right; reflexivity | exact Htaken ].
  - cbn [step fst snd]. split; [ right; reflexivity | exact Htaken ].
Qed.

Lemma step_ganando e c p w :
  ganando c p -> tomada f h c w ->
  ganando c (fst (step e p w)) /\ tomada f h c (snd (step e p w)).
Proof.
  intros [-> | [(c' & ev & Heq & ->) | [(c' & g & Heq & ->) | (c' & g & s & Heq & ->)]]]
         Htaken.
  - unfold integraciones. cbn [step exec].
    destruct (calendar_insert e) as [ev | err]; cbn [fst snd];
      (split; [ | exact Htaken ]).
    + right; left. exists (setEventId (Some ev) c), ev. split; reflexivity.
    + right; right; left. exists c, None. split; reflexivity.
  - cbn [step exec].
    assert (Hnext : ganando c (enviarSMS c' (Some ev)))
      by (right; right; left; exists c', (Some ev); split; [ exact Heq | reflexivity ]).
    destruct (update_fault e); [ cbn [fst snd]; split; assumption | ].
    destruct (existsb (hasId (_id c')) (citas w)); cbn [fst snd];
      (split; [ exact Hnext | ]); [ | exact Htaken ].
    unfold tomada. cbn [setCitas citas].
    rewrite filter_updateFirst_setEventId. exact Htaken.
  - unfold enviarSMS. cbn [step exec].
    destruct (twilio_create e); cbn [fst snd]; (split; [ | exact Htaken ]);
      right; right; right; eexists; eexists; eexists; (split; [ exact Heq | reflexivity ]).
  - cbn [step fst snd]. split; [ | exact Htaken ].
    right; right; right. exists c', g, s. split; [ exact Heq | reflexivity ].
Qed.
End Race.

Section RaceInvariant.
Context {P : Platform}.
Variables (f : Z) (h : string).
Variables (e1 e2 : Env) (d1 d2 : Draft) (now1 now2 : Z).
Hypothesis e1_findOne : findOne_fault e1 = None.
Hypothesis e1_insert : insert_fault e1 = None.
Hypothesis e2_findOne : findOne_fault e2 = None.
Hypothesis e2_insert : insert_fault e2 = None.
Hypothesis d1_fecha : d_fecha d1 = f.
Hypothesis d1_horario : d_horario d1 = h.
Hypothesis d2_fecha : d_fecha d2 = f.
Hypothesis d2_horario : d_horario d2 = h.

Lemma carrera_step1 p1 p2 w :
  carrera f h d1 d2 now1 now2 p1 p2 w ->
  carrera f h d1 d2 now1 now2 (fst (step e1 p1 w)) p2 (snd (step e1 p1 w)).
Proof.
  intros [(H1 & H2 & Hw) | [(id & H1 & H2 & Hw) | (id & H2 & H1 & Hw)]].
  - destruct (step_pendiente_libre e1 e1_findOne e1_insert d1_fecha d1_horario H1 Hw)
      as [(H1' & Hw') | (id & H1' & Hw')].
    + left. auto.
    + right; left. exists id. auto.
  - destruct (step_ganando e1 H1 Hw) as (H1' & Hw').
    right; left. exists id. auto.
  - destruct (step_pendiente_tomada e1 e1_findOne e1_insert d1_fecha d1_horario H1 Hw)
      as (H1' & Hw').
    right; right. exists id. auto.
Qed.

Lemma carrera_step2 p1 p2 w :
  carrera f h d1 d2 now1 now2 p1 p2 w ->
  carrera f h d1 d2 now1 now2 p1 (fst (step e2 p2 w)) (snd (step e2 p2 w)).
Proof.
  intros [(H1 & H2 & Hw) | [(id & H1 & H2 & Hw) | (id & H2 & H1 & Hw)]].
  - destruct (step_pendiente_libre e2 e2_findOne e2_insert d2_fecha d2_horario H2 Hw)
      as [(H2' & Hw') | (id & H2' & Hw')].
    + left. auto.
    + right; right. exists id. auto.
  - destruct (step_pendiente_tomada e2 e2_findOne e2_insert d2_fecha d2_horario H2 Hw)
      as (H2' & Hw').
    right; left. exists id. auto.
  - destruct (step_ganando e2 H2 Hw) as (H2' & Hw').
    right; right. exists id. auto.
Qed.

Lemma carrera_interleave sched : forall p1 p2 w,
  carrera f h d1 d2 now1 now2 p1 p2 w ->
  carrera f h d1 d2 now1 now2 (fst (fst (interleave sched e1 e2 p1 p2 w)))
          (snd (fst (interleave sched e1 e2 p1 p2 w)))
          (snd (interleave sched e1 e2 p1 p2 w)).
Proof.
  induction sched as [ | [ | ] s IH ]; intros p1 p2 w H; cbn [interleave].
  - exact H.
  - pose proof (carrera_step1 H) as H'.
    destruct (step e1 p1 w) as [p1' w']. apply IH. exact H'.
  - pose proof (carrera_step2 H) as H'.
    destruct (step e2 p2 w) as [p2' w']. apply IH. exact H'.
Qed.
End RaceInvariant.

(** Running a request to its end is taking its turns one after the other:
    what every turn preserves holds of the response. *)
Lemma run_preserves {P : Platform} (env : Env) (R : Type)
      (Q : Prog R -> World -> Prop) :
  (forall p w, Q p w -> Q (fst (step env p w)) (snd (step env p w))) ->
  forall p w, Q p w -> Q (Ret (fst (run env p w))) (snd (run env p w)).
Proof.
  intros Hstep p. induction p as [ r | A op k IH ]; intros w HQ.
  - exact HQ.
  - cbn [run]. specialize (Hstep _ _ HQ). cbn [step] in Hstep.
    destruct (exec env op w) as [a w']. apply IH. exact Hstep.
Qed.

Lemma creada_igualSalvoEvento c' c g s :
  igualSalvoEvento c' c -> creada c' g s = creada c g s.
Proof.
  unfold igualSalvoEvento. destruct c', c. cbn.
  intros [= -> -> -> -> -> -> -> ->]. reflexivity.
Qed.

Section RaceClaim.
Context {P : Platform}.
Variable tz : Z.

Lemma pendiente_not_Ret d now r : ~ pendiente d now (Ret r).
Proof.
  intros [H | [H | (id & H)]]; discriminate H.
Qed.

Lemma ganando_Ret c r :
  ganando c (Ret r) -> exists c' g s, igualSalvoEvento c' c /\ r = creada c' g s.
Proof.
  intros [H | [(c' & ev & _ & H) | [(c' & g & _ & H) | (c' & g & s & Heq & H)]]];
    try discriminate H.
  injection H as ->. exists c', g, s. split; [ exact Heq | reflexivity ].
Qed.

Lemma tomada_gana d now id c' g s w :
  tomada (d_fecha d) (d_horario d) (newCita id d now) w ->
  igualSalvoEvento c' (newCita id d now) ->
  gana d now (creada c' g s) w.
Proof.
  unfold tomada, gana. intros Htaken Heq.
  destruct (filter _ (citas w)) as [ | c0 [ | c1 l ] ]; cbn [map] in Htaken;
    try discriminate Htaken.
  assert (Hc0 : setEventId None c0 = newCita id d now)
    by (apply (f_equal (hd c0)) in Htaken; exact Htaken).
  assert (Hid : _id c0 = id) by (apply (f_equal _id) in Hc0; exact Hc0).
  exists c0. split; [ reflexivity | ].
  split; [ rewrite Hid; exact Hc0 | ].
  split; [ reflexivity | ].
  exists (notNot g), s.
  rewrite (creada_igualSalvoEvento g s Heq).
  rewrite <- (creada_igualSalvoEvento (c' := c0) (c := newCita id d now) g s);
    [ reflexivity | exact Hc0 ].
Qed.

End RaceClaim.

Section OccupiedClaim.
Context {P : Platform}.
Variable tz : Z.

(** What the route does: while the store answers, the list of occupied
    slots is the projection of the confirmed appointments whose date, an
    instant, is not before the instant of the request, and the world is left
    as it was; an appointment just booked is in the list of a request made
    no later than the instant of its date. *)
Lemma occupied_lists_the_confirmed_appointments_from_now_on :
  forall (env : Env) (now : Z) (w : World),
    find_fault env = None ->
    exists l,
      run env (getOccupied now) w = (mkResp 200 (BodyOcupadas l), w)
      /\ (forall o, In o l <->
                    exists c, In c (citas w) /\ estado c = confirmada
                              /\ now <= fecha c /\ o = ocupada c)
      /\ (forall env1 now1 b w0 r,
            run env1 (postAppointments tz now1 b) w0 = (r, w) ->
            status r = 201 ->
            now <= d_fecha (sanitized b) ->
            exists o, In o l /\ o_fecha o = d_fecha (sanitized b)
                      /\ o_horario o = d_horario (sanitized b)).
Proof.
  intros env now w Hf.
  unfold getOccupied. cbn [run exec]. rewrite Hf.
  eexists. split; [ reflexivity | ].
  assert (Hiff : forall o,
             In o (map ocupada
                     (filter (fun c => Estado_eqb (estado c) confirmada
                                       && (now <=? fecha c)) (citas w))) <->
             exists c, In c (citas w) /\ estado c = confirmada
                       /\ now <= fecha c /\ o = ocupada c).
  { intros o. rewrite in_map_iff. split.
    - intros (c & <- & Hin). apply filter_In in Hin as [Hin Hc].
      apply andb_true_iff in Hc as [He Hd]. apply Z.leb_le in Hd.
      exists c. repeat split; try assumption.
      destruct (estado c); try discriminate He; reflexivity.
    - intros (c & Hin & He & Hd & ->). exists c. split; [ reflexivity | ].
      apply filter_In. split; [ exact Hin | ].
      rewrite He. apply Z.leb_le in Hd. rewrite Hd. reflexivity. }
  split; [ exact Hiff | ].
  intros env1 now1 b w0 r Hrun Hst Hd.
  destruct (created_is_stored tz env1 now1 b w0 Hrun Hst) as (c & Hin & Hfe & Hho & He).
  exists (ocupada c). split; [ | split; assumption ].
  apply Hiff. exists c. rewrite Hfe. repeat split; assumption.
Qed.
End OccupiedClaim.

(** ** The cancellation route on the text of its parameter *)

Section CancelRouteClaim.
Context {P : Platform} {M : Mongoose}.

(** C8.  While the store answers, the cancellation route is answered 404
    exactly when its parameter is an identifier and no stored appointment
    has it.  A parameter that is not an identifier, which no appointment
    has either, is answered 500, and nothing changes.  When an appointment
    has the identifier its status becomes [cancelada] and the answer, 200,
    carries the identifier and that status; an appointment that was already
    cancelled is answered the same way, and the collection is left as it
    was. *)
Theorem cancel_is_not_found_exactly_for_well_formed_unknown_identifiers :
  forall (env : Env) (idParam : string) (w : World),
    findByIdAndUpdate_fault env = None ->
    exists r w',
      run env (patchCancelParam idParam) w = (r, w')
      /\ (status r = 404 <->
            exists id, castObjectId idParam = Some id
                       /\ forall c, In c (citas w) -> _id c <> id)
      /\ (castObjectId idParam = None ->
            r = errorDelServidor "No se pudo cancelar la cita" /\ w' = w)
      /\ (forall id c,
            castObjectId idParam = Some id ->
            find (hasId id) (citas w) = Some c ->
            r = mkResp 200 (BodyCancelada id cancelada)
            /\ citas w' = updateFirst (hasId id) (setEstado cancelada) (citas w)
            /\ find (hasId id) (citas w') = Some (setEstado cancelada c))
      /\ (forall id c,
            castObjectId idParam = Some id ->
            find (hasId id) (citas w) = Some c ->
            estado c = cancelada ->
            r = mkResp 200 (BodyCancelada id cancelada) /\ citas w' = citas w).
Proof.
  intros env idParam w Hf. unfold patchCancelParam.
  destruct (castObjectId idParam) as [oid | ] eqn:Hcast.
  - destruct (cancel_is_not_found_exactly_for_unknown_identifiers env oid w Hf)
      as (r & w' & Hrun & H404 & Hfound & Hagain).
    exists r, w'. split; [ exact Hrun | ]. split.
    + split.
      * intros H. exists oid. split; [ reflexivity | ]. apply H404, H.
      * intros (id & [= <-] & H). apply H404, H.
    + split; [ discriminate | ]. split.
      * intros id c [= <-]. apply Hfound.
      * intros id c [= <-]. apply Hagain.
  - exists (errorDelServidor "No se pudo cancelar la cita"), w.
    split; [ reflexivity | ]. split.
    + split; [ cbn; discriminate | intros (id & H & _); discriminate ].
    + split; [ intros _; split; reflexivity | ].
      split; intros id c; discriminate.
Qed.
End CancelRouteClaim.

(** ** The scenario, run *)

(** C1.  Ana books 2030-05-20 at 09:00 and is answered 201; her appointment
    is cancelled; the list of occupied slots is then empty, yet Luis's valid
    request for the same date and slot is answered 409: the document of the
    cancelled appointment still holds the key of the unique index. *)
Theorem cancelled_slot_is_still_refused :
  let '(r1, w1) := run sinFallos (postAppointments tzElSalvador ahora ana) vacio in
  let '(r2, w2) := run sinFallos (patchCancel 1) w1 in
  let '(r3, w3) := run sinFallos (getOccupied ahora) w2 in
  let '(r4, w4) := run sinFallos (postAppointments tzElSalvador ahora luis) w3 in
  status r1 = 201
  /\ r2 = mkResp 200 (BodyCancelada 1 cancelada)
  /\ map estado (citas w2) = [cancelada]
  /\ r3 = mkResp 200 (BodyOcupadas [])
  /\ validationResult tzElSalvador ahora luis = []
  /\ r4 = horarioOcupado
  /\ citas w4 = citas w2.
Proof. vm_compute. repeat split. Qed.

(** C7.  The route compares the date of an appointment with the instant of
    the request, where the validator of the booking route, and the form,
    compare with the start of the current day: the list omits bookings the
    server has just accepted.  At seven in the evening at the clinic (01:00
    UTC of the next day), a request for the next day is booked and
    confirmed; its date is after the server's date and no earlier than the
    UTC date, and the list of occupied slots asked for at the same instant
    is empty, where the specification lists the slot.  A server on UTC, for
    which the request is for the current day, does the same. *)
Lemma occupied_omits_a_confirmed_booking_of_tomorrow :
  let '(r1, w1) := run sinFallos (postAppointments tzElSalvador estaTarde paraManana) vacio in
  let '(r2, w2) := run sinFallos (getOccupied estaTarde) w1 in
  status r1 = 201
  /\ map (fun c => (fecha c / msPerDay, horario c, estado c)) (citas w1)
     = [(22045, "09:00", confirmada)]
  /\ localDay tzElSalvador estaTarde = 22044
  /\ localDay 0 estaTarde = 22045
  /\ r2 = mkResp 200 (BodyOcupadas [])
  /\ spec_listOccupiedSlots (localDay tzElSalvador estaTarde) (citas w1)
     = [(22045 * msPerDay, "09:00")]
  /\ spec_listOccupiedSlots (localDay 0 estaTarde) (citas w1)
     = [(22045 * msPerDay, "09:00")]
  /\ run sinFallos (postAppointments 0 estaTarde paraManana) vacio = (r1, w1).
Proof. vm_compute. repeat split. Qed.

(** C8.  The text [99] is not an identifier: no stored appointment has it,
    and cancelling it, the store answering, is answered 500 with the
    message of the [catch], where the specification answers 404. *)
Lemma malformed_identifier_is_answered_500 :
  let '(r, w') := run sinFallos (patchCancelParam idMalFormado) conAna in
  castObjectId idMalFormado = None
  /\ (forall c, In c (citas conAna) -> castObjectId idMalFormado <> Some (_id c))
  /\ findByIdAndUpdate_fault sinFallos = None
  /\ r = errorDelServidor "No se pudo cancelar la cita"
  /\ status r = 500
  /\ w' = conAna.
Proof.
  vm_compute. repeat split. intros c _. discriminate.
Qed.


(** A slot whose only appointment is cancelled is free for the list of
    occupied slots, and two requests for it served at once are both
    refused: the index still holds the key. *)
Example cancelled_slot_has_no_winner :
  let w := snd (run sinFallos (patchCancel 1) conAna) in
  let '(r1, r2, w') :=
    concurrent [true; false; false; true; false; true] sinFallos sinFallos
      (postAppointments tzElSalvador ahora ana)
      (postAppointments tzElSalvador ahora luis) w in
  fst (run sinFallos (getOccupied ahora) w) = mkResp 200 (BodyOcupadas [])
  /\ r1 = horarioOcupado /\ r2 = horarioOcupado /\ citas w' = citas w.
Proof. vm_compute. repeat split. Qed.

(** ** The theorems at work on the scenario *)

(** C5 on a request all of whose fields break their rules. *)
Lemma invalid_request_lists_every_failing_field_witness :
  (exists campo, In campo campos /\ campoValido tzElSalvador ahora malo campo = false)
  /\ exists errores,
       postAppointments tzElSalvador ahora malo = Ret (datosInvalidos errores)
       /\ run sinFallos (postAppointments tzElSalvador ahora malo) vacio
          = (datosInvalidos errores, vacio)
       /\ forall campo,
            In campo (map param errores) <->
            In campo campos /\ campoValido tzElSalvador ahora malo campo = false.
Proof.
  assert (H : exists campo,
             In campo campos /\ campoValido tzElSalvador ahora malo campo = false)
    by (exists "telefono"; split; [ cbn; tauto | vm_compute; reflexivity ]).
  exact (conj H (@invalid_request_lists_every_failing_field Reference.platform
                   tzElSalvador sinFallos ahora malo vacio H)).
Defined.

(** C6 on a request for 2020-01-01, made in 2030. *)
Lemma past_date_is_a_validation_error_witness :
  toDate (b_fecha malo) = Some (18262 * msPerDay)
  /\ antesDeHoy tzElSalvador ahora (18262 * msPerDay)
  /\ exists errores,
       run sinFallos (postAppointments tzElSalvador ahora malo) vacio
       = (datosInvalidos errores, vacio)
       /\ In (mkVErr "fecha" "La fecha no puede ser en el pasado") errores.
Proof.
  assert (H1 : toDate (b_fecha malo) = Some (18262 * msPerDay))
    by (vm_compute; reflexivity).
  assert (H2 : antesDeHoy tzElSalvador ahora (18262 * msPerDay))
    by (left; vm_compute; reflexivity).
  exact (conj H1 (conj H2 (@past_date_is_a_validation_error Reference.platform
                             tzElSalvador sinFallos ahora malo vacio _ H1 H2))).
Defined.

(** C3 on Ana's request when Google Calendar and Twilio both fail. *)
Lemma booking_succeeds_whatever_the_integrations_do_witness :
  validationResult tzElSalvador ahora ana = []
  /\ libre (d_fecha (sanitized ana)) (d_horario (sanitized ana)) vacio
  /\ exists r w',
       run sinIntegraciones (postAppointments tzElSalvador ahora ana) vacio = (r, w')
       /\ status r = 201
       /\ body r = BodyCreada 1 "Ana Lopez" (22054 * msPerDay) "09:00"
                     "limpieza-dental" false false
       /\ calls w' = [CalledCalendarInsert 1; CalledTwilioCreate "+50370001111"]
       /\ exists c', In c' (citas w')
                     /\ setEventId None c' = newCita 1 (sanitized ana) ahora.
Proof.
  assert (H1 : validationResult tzElSalvador ahora ana = [])
    by (vm_compute; reflexivity).
  assert (H2 : libre (d_fecha (sanitized ana)) (d_horario (sanitized ana)) vacio)
    by reflexivity.
  exact (conj H1 (conj H2 (@booking_succeeds_whatever_the_integrations_do
                             Reference.platform tzElSalvador sinIntegraciones
                             ahora ana vacio H1 eq_refl eq_refl H2))).
Defined.

(** C9 on Ana's request when the event is created and cannot be attached. *)
Lemma calendar_flag_reports_event_creation_witness :
  validationResult tzElSalvador ahora ana = []
  /\ libre (d_fecha (sanitized ana)) (d_horario (sanitized ana)) vacio
  /\ calendar_insert sinAdjuntar = Ok "evt-1"
  /\ truthy "evt-1" = true
  /\ update_fault sinAdjuntar = Some (mkError None)
  /\ exists r w',
       run sinAdjuntar (postAppointments tzElSalvador ahora ana) vacio = (r, w')
       /\ status r = 201
       /\ body r = BodyCreada 1 "Ana Lopez" (22054 * msPerDay) "09:00"
                     "limpieza-dental" true true
       /\ citas w' = [newCita 1 (sanitized ana) ahora]
       /\ googleCalendarEventId (newCita 1 (sanitized ana) ahora) = None.
Proof.
  assert (H1 : validationResult tzElSalvador ahora ana = [])
    by (vm_compute; reflexivity).
  assert (H2 : libre (d_fecha (sanitized ana)) (d_horario (sanitized ana)) vacio)
    by reflexivity.
  exact (conj H1 (conj H2 (conj eq_refl (conj eq_refl (conj eq_refl
           (@calendar_flag_reports_event_creation Reference.platform tzElSalvador
              sinAdjuntar ahora ana vacio "evt-1" (mkError None)
              H1 eq_refl eq_refl H2 eq_refl eq_refl eq_refl)))))).
Defined.

(** C4 on Luis's request for the slot Ana holds. *)
Lemma slot_taken_has_no_side_effects_witness :
  validationResult tzElSalvador ahora luis = []
  /\ ~ libre (d_fecha (sanitized luis)) (d_horario (sanitized luis)) conAna
  /\ fst (run sinFallos (postAppointments tzElSalvador ahora luis) conAna)
     = horarioOcupado
  /\ citas (snd (run sinFallos (postAppointments tzElSalvador ahora luis) conAna))
     = citas conAna
  /\ calls (snd (run sinFallos (postAppointments tzElSalvador ahora luis) conAna))
     = calls conAna.
Proof.
  assert (H1 : validationResult tzElSalvador ahora luis = [])
    by (vm_compute; reflexivity).
  assert (H2 : ~ libre (d_fecha (sanitized luis)) (d_horario (sanitized luis)) conAna)
    by (intros H; vm_compute in H; discriminate H).
  destruct (@slot_taken_has_no_side_effects Reference.platform tzElSalvador
              sinFallos ahora luis conAna) as [Ha Hb].
  pose proof (Ha H1 eq_refl eq_refl H2) as H3.
  assert (H4 : status (fst (run sinFallos
                              (postAppointments tzElSalvador ahora luis) conAna)) = 409)
    by (rewrite H3; reflexivity).
  exact (conj H1 (conj H2 (conj H3 (Hb H4)))).
Defined.

(** C8 on the identifier of Ana's appointment, on an identifier that no
    appointment has, and on a text that is not an identifier. *)
Lemma cancel_is_not_found_exactly_for_well_formed_unknown_identifiers_witness :
  findByIdAndUpdate_fault sinFallos = None
  /\ (exists r w',
        run sinFallos (patchCancelParam idDeAna) conAna = (r, w')
        /\ r = mkResp 200 (BodyCancelada 1 cancelada)
        /\ find (hasId 1) (citas w') = Some (setEstado cancelada deAna))
  /\ (exists r w',
        run sinFallos (patchCancelParam idDesconocido) conAna = (r, w')
        /\ status r = 404)
  /\ (exists r w',
        run sinFallos (patchCancelParam idMalFormado) conAna = (r, w')
        /\ r = errorDelServidor "No se pudo cancelar la cita" /\ w' = conAna).
Proof.
  split; [ reflexivity | ]. split; [ | split ].
  - destruct (@cancel_is_not_found_exactly_for_well_formed_unknown_identifiers
                Reference.platform ReferenceMongoose.mongoose
                sinFallos idDeAna conAna eq_refl)
      as (r & w' & Hrun & _ & _ & Hfound & _).
    exists r, w'. split; [ exact Hrun | ].
    destruct (Hfound 1%N deAna eq_refl eq_refl) as (Hr & _ & Hc).
    split; [ exact Hr | exact Hc ].
  - destruct (@cancel_is_not_found_exactly_for_well_formed_unknown_identifiers
                Reference.platform ReferenceMongoose.mongoose
                sinFallos idDesconocido conAna eq_refl)
      as (r & w' & Hrun & H404 & _).
    exists r, w'. split; [ exact Hrun | ].
    apply H404. exists 99%N. split; [ reflexivity | ].
    intros c [<- | []]. vm_compute. discriminate.
  - destruct (@cancel_is_not_found_exactly_for_well_formed_unknown_identifiers
                Reference.platform ReferenceMongoose.mongoose
                sinFallos idMalFormado conAna eq_refl)
      as (r & w' & Hrun & _ & H500 & _).
    exists r, w'. split; [ exact Hrun | ]. apply H500. reflexivity.
Defined.

(** C10 on an appointment whose status is [completada]. *)
Lemma cancel_overwrites_any_status_witness :
  findByIdAndUpdate_fault sinFallos = None
  /\ (exists c, find (hasId 7) (citas conCompletada) = Some c
                /\ estado c = completada)
  /\ exists w' c',
       run sinFallos (patchCancel 7) conCompletada
       = (mkResp 200 (BodyCancelada 7 cancelada), w')
       /\ find (hasId 7) (citas w') = Some c'
       /\ estado c' = cancelada
       /\ In (setEstado completada c') (citas conCompletada).
Proof.
  split; [ reflexivity | ].
  split; [ eexists; split; reflexivity | ].
  destruct (@cancel_overwrites_any_status Reference.platform sinFallos 7%N
              conCompletada _ completada eq_refl eq_refl eq_refl)
    as (w' & c' & Hrun & Hfind & Hest & Hprev).
  exists w', c'. rewrite Hprev.
  split; [ exact Hrun | ]. split; [ exact Hfind | ]. split; [ exact Hest | ].
  left. reflexivity.
Defined.


(** The schedule of the witness lets Luis's insertion in first: he wins, and
    Ana, whose query had found the slot free, is refused by the index. *)
Example carrera_ganada_por_luis :
  let '(r1, r2, w') :=
    concurrent [true; false; false; true; false; true] sinFallos sinIntegraciones
      (postAppointments tzElSalvador ahora ana)
      (postAppointments tzElSalvador ahora luis) vacio in
  r1 = horarioOcupado
  /\ status r2 = 201
  /\ map nombreCompleto (citas w') = ["Luis Perez"].
Proof. vm_compute. repeat split. Qed.

(** * More of the server *)

(** ** What every operation keeps *)

Lemma slotKey_notin f h l :
  existsb (sameSlot f h) l = false -> ~ In (f, h) (map slotKey l).
Proof.
  induction l as [ | x l IH ]; cbn; [ tauto | ].
  intros H. apply orb_false_iff in H as [Hx Hl].
  intros [E | Hin]; [ | exact (IH Hl Hin) ].
  unfold slotKey in E. injection E as <- <-.
  unfold sameSlot in Hx. rewrite Z.eqb_refl, String.eqb_refl in Hx. discriminate Hx.
Qed.

Lemma map_updateFirst_inv (B : Type) (g : Cita -> B) p f l :
  (forall c, g (f c) = g c) -> map g (updateFirst p f l) = map g l.
Proof.
  intros Hg. induction l as [ | x l IH ]; cbn; [ reflexivity | ].
  destruct (p x); cbn; [ rewrite Hg | rewrite IH ]; reflexivity.
Qed.

Lemma NoDup_snoc (B : Type) (x : B) l : NoDup l -> ~ In x l -> NoDup (l ++ [x]).
Proof.
  intros Hl Hx. apply NoDup_app; [ exact Hl | constructor; [ tauto | constructor ] | ].
  intros y Hy [<- | []]. exact (Hx Hy).
Qed.

Section Invariants.
Context {P : Platform}.

Lemma exec_indiceUnico env (A : Type) (op : Op A) w :
  indiceUnico w -> indiceUnico (snd (exec env op w)).
Proof.
  unfold indiceUnico. intros H.
  destruct op as [ now | f h | d now | [ | ] c | c | c | id | ev ]; cbn [exec].
  - destruct (find_fault env); exact H.
  - destruct (findOne_fault env); exact H.
  - exact H.
  - destruct (insert_fault env); [ exact H | ].
    destruct (existsb _ (citas w)) eqn:E; [ exact H | ].
    cbn [snd setCitas citas]. rewrite map_app. cbn [map].
    apply NoDup_snoc; [ exact H | ]. apply slotKey_notin. exact E.
  - destruct (update_fault env); [ exact H | ].
    destruct (existsb _ (citas w)); [ | exact H ].
    cbn [snd setCitas citas]. rewrite map_updateFirst_inv; [ exact H | reflexivity ].
  - exact H.
  - exact H.
  - destruct (findByIdAndUpdate_fault env); [ exact H | ].
    destruct (find _ (citas w)); [ | exact H ].
    cbn [snd setCitas citas]. rewrite map_updateFirst_inv; [ exact H | reflexivity ].
  - exact H.
Qed.

(** What every operation keeps, every program keeps. *)
Lemma run_keeps env (I : World -> Prop) :
  (forall (A : Type) (op : Op A) w, I w -> I (snd (exec env op w))) ->
  forall (R : Type) (p : Prog R) w, I w -> I (snd (run env p w)).
Proof.
  intros Hexec R p. induction p as [ r | A op k IH ]; intros w Hw; [ exact Hw | ].
  cbn [run]. specialize (Hexec A op w Hw).
  destruct (exec env op w) as [a w']. apply IH. exact Hexec.
Qed.

End Invariants.


Lemma sucede_refl c : sucede c c.
Proof. split; [ reflexivity | left; reflexivity ]. Qed.

Lemma sucede_trans a b c : sucede a b -> sucede b c -> sucede a c.
Proof.
  intros [Hd1 He1] [Hd2 He2]. split; [ congruence | ].
  destruct He2 as [E2 | E2]; [ | right; exact E2 ].
  destruct He1 as [E1 | E1]; [ left | right ]; congruence.
Qed.

Lemma Forall2_sucede_refl l : Forall2 sucede l l.
Proof. induction l; constructor; [ apply sucede_refl | assumption ]. Qed.

Lemma Forall2_sucede_trans l1 : forall l2 l3,
  Forall2 sucede l1 l2 -> Forall2 sucede l2 l3 -> Forall2 sucede l1 l3.
Proof.
  induction l1 as [ | a l1 IH ]; intros l2 l3 H12 H23;
    inversion H12; subst; inversion H23; subst; constructor.
  - eapply sucede_trans; eassumption.
  - eapply IH; eassumption.
Qed.

Lemma evoluciona_refl w : evoluciona w w.
Proof.
  exists (citas w), []. split; [ symmetry; apply app_nil_r | apply Forall2_sucede_refl ].
Qed.

Lemma evoluciona_same w w' : citas w' = citas w -> evoluciona w w'.
Proof.
  intros E. exists (citas w), [].
  split; [ rewrite E; symmetry; apply app_nil_r | apply Forall2_sucede_refl ].
Qed.

Lemma evoluciona_trans w0 w1 w2 :
  evoluciona w0 w1 -> evoluciona w1 w2 -> evoluciona w0 w2.
Proof.
  intros (l1 & x1 & E1 & F1) (l2 & x2 & E2 & F2).
  rewrite E1 in F2. apply Forall2_app_inv_l in F2 as (l2a & l2b & Fa & Fb & ->).
  exists l2a, (l2b ++ x2)%list. split; [ rewrite E2, app_assoc; reflexivity | ].
  eapply Forall2_sucede_trans; eassumption.
Qed.

Lemma updateFirst_sucede p f l :
  (forall c, sucede c (f c)) -> Forall2 sucede l (updateFirst p f l).
Proof.
  intros Hf. induction l as [ | x l IH ]; cbn; [ constructor | ].
  destruct (p x); constructor;
    [ apply Hf | apply Forall2_sucede_refl | apply sucede_refl | exact IH ].
Qed.

Lemma evoluciona_updateFirst p f w :
  (forall c, sucede c (f c)) ->
  evoluciona w (setCitas (updateFirst p f (citas w)) w).
Proof.
  intros Hf. exists (updateFirst p f (citas w)), [].
  split; [ symmetry; apply app_nil_r | apply updateFirst_sucede; exact Hf ].
Qed.

Section Evolution.
Context {P : Platform}.
Variable tz : Z.

Lemma exec_evoluciona env (A : Type) (op : Op A) w :
  evoluciona w (snd (exec env op w)).
Proof.
  destruct op as [ now | f h | d now | [ | ] c | c | c | id | ev ]; cbn [exec];
    try (apply evoluciona_same; reflexivity).
  - destruct (find_fault env); apply evoluciona_refl.
  - destruct (findOne_fault env); apply evoluciona_refl.
  - destruct (insert_fault env); [ apply evoluciona_refl | ].
    destruct (existsb _ (citas w)); [ apply evoluciona_refl | ].
    exists (citas w), [c]. split; [ reflexivity | apply Forall2_sucede_refl ].
  - destruct (update_fault env); [ apply evoluciona_refl | ].
    destruct (existsb _ (citas w)); [ | apply evoluciona_refl ].
    apply evoluciona_updateFirst. intros x. split; [ reflexivity | left; reflexivity ].
  - destruct (findByIdAndUpdate_fault env); [ apply evoluciona_refl | ].
    destruct (find _ (citas w)); [ | apply evoluciona_refl ].
    apply evoluciona_updateFirst. intros x. split; [ reflexivity | right; reflexivity ].
Qed.

Lemma run_evoluciona env (R : Type) (p : Prog R) w :
  evoluciona w (snd (run env p w)).
Proof.
  apply (run_keeps env (fun w' => evoluciona w w')); [ | apply evoluciona_refl ].
  intros A op w' H. eapply evoluciona_trans; [ exact H | apply exec_evoluciona ].
Qed.

Lemma historia_evoluciona h : forall w, evoluciona w (historia tz h w).
Proof.
  induction h as [ | [env p] h IH ]; intros w; cbn [historia].
  - apply evoluciona_refl.
  - eapply evoluciona_trans; [ apply run_evoluciona | apply IH ].
Qed.

Lemma historia_indiceUnico h : forall w,
  indiceUnico w -> indiceUnico (historia tz h w).
Proof.
  induction h as [ | [env p] h IH ]; intros w Hw; cbn [historia]; [ exact Hw | ].
  apply IH. apply (run_keeps env indiceUnico); [ | exact Hw ].
  intros A op w'. apply exec_indiceUnico.
Qed.
End Evolution.

(** A document of [w] has a later state in any later state of the collection. *)
Lemma evoluciona_In w w' c :
  evoluciona w w' -> In c (citas w) ->
  exists c', In c' (citas w') /\ sucede c c'.
Proof.
  intros (l & extra & E & F) Hin. rewrite E. clear E.
  induction F as [ | a b l1 l2 Hab F IH ]; [ contradiction | ].
  destruct Hin as [-> | Hin].
  - exists b. split; [ left; reflexivity | exact Hab ].
  - destruct (IH Hin) as (c' & Hc' & Hs). exists c'. split; [ right; exact Hc' | exact Hs ].
Qed.

Lemma sucede_slotKey c c' : sucede c c' -> slotKey c' = slotKey c.
Proof.
  intros [Hd _]. unfold slotKey.
  assert (Hf : fecha (datos c') = fecha (datos c)) by (rewrite Hd; reflexivity).
  assert (Hh : horario (datos c') = horario (datos c)) by (rewrite Hd; reflexivity).
  cbn in Hf, Hh. congruence.
Qed.

Lemma NoDup_map_In_eq (B : Type) (g : Cita -> B) l a b :
  NoDup (map g l) -> In a l -> In b l -> g a = g b -> a = b.
Proof.
  induction l as [ | x l IH ]; cbn; [ contradiction | ].
  intros H Ha Hb E. inversion H as [ | k ks Hnotin Hnodup ]; subst.
  destruct Ha as [-> | Ha], Hb as [-> | Hb].
  - reflexivity.
  - exfalso. apply Hnotin. rewrite E. apply in_map. exact Hb.
  - exfalso. apply Hnotin. rewrite <- E. apply in_map. exact Ha.
  - apply IH; assumption.
Qed.

Section Requests.
Context {P : Platform}.
Variable tz : Z.

Lemma run_getOccupied env now w :
  run env (getOccupied now) w =
  (match find_fault env with
   | Some _ => errorDelServidor "No se pudieron cargar los horarios ocupados"
   | None =>
       mkResp 200
         (BodyOcupadas
            (map ocupada
               (filter (fun c => Estado_eqb (estado c) confirmada && (now <=? fecha c))
                       (citas w))))
   end, w).
Proof.
  unfold getOccupied. cbn [run exec]. destruct (find_fault env); reflexivity.
Qed.

(** The outcomes of a booking request: created, which takes a request that
    passes validation, a store that answers and a slot free in the index; or
    refused, with the collection and the calls as they were. *)
Lemma run_postAppointments_cases env now b w :
  (status (fst (run env (postAppointments tz now b) w)) = 201
   /\ validationResult tz now b = []
   /\ libre (d_fecha (sanitized b)) (d_horario (sanitized b)) w)
  \/ ((status (fst (run env (postAppointments tz now b) w)) = 400
       \/ status (fst (run env (postAppointments tz now b) w)) = 409
       \/ status (fst (run env (postAppointments tz now b) w)) = 500)
      /\ citas (snd (run env (postAppointments tz now b) w)) = citas w
      /\ calls (snd (run env (postAppointments tz now b) w)) = calls w).
Proof.
  unfold postAppointments.
  destruct (validationResult tz now b) as [ | v vs ] eqn:Ev; cbn [isEmpty negb];
    [ | right; cbn; auto ].
  unfold reservar. cbn [run exec].
  assert (Hcatch : forall e,
             status (catchCrear e) = 400
             \/ status (catchCrear e) = 409
             \/ status (catchCrear e) = 500)
    by (intros e; destruct (status_catchCrear e); auto).
  destruct (findOne_fault env);
    [ right; cbn [run fst snd]; split; [ apply Hcatch | auto ] | ].
  destruct (find _ (citas w)); [ right; cbn; auto | ].
  cbn [run exec guardar newCita fecha horario citas].
  destruct (insert_fault env);
    [ right; cbn [run fst snd]; split; [ apply Hcatch | auto ] | ].
  destruct (existsb _ (citas w)) eqn:E; [ right; cbn; auto | ].
  left.
  match goal with
  | |- context [ run env (integraciones ?c) ?w0 ] =>
      destruct (run_integraciones env c w0) as (w' & Hrun & _)
  end.
  rewrite Hrun. split; [ reflexivity | ]. split; [ reflexivity | exact E ].
Qed.
End Requests.

Section StoreExtras.
Context {P : Platform}.
Variable tz : Z.

(** X3.  No history of requests deletes an appointment or rewrites it: the
    documents of the collection stay, in their order, each with the
    identifier, the patient, the service, the date, the slot and the creation
    date it had; its status is the one it had or [cancelada]. *)
Theorem appointments_are_never_deleted_nor_rewritten :
  forall (h : list (Env * Peticion)) (w : World),
    evoluciona w (historia tz h w)
    /\ forall c, In c (citas w) ->
         exists c', In c' (citas (historia tz h w))
                    /\ datos c' = datos c
                    /\ (estado c' = estado c \/ estado c' = cancelada).
Proof.
  intros h w. pose proof (historia_evoluciona tz h w) as H.
  split; [ exact H | ]. intros c Hin.
  destruct (@evoluciona_In _ _ c H Hin) as (c' & Hin' & Hd & He).
  exists c'. auto.
Qed.

(** X4.  A booking request answers 201, 400, 409 or 500, and whatever is not
    a 201 has changed nothing: the collection is what it was and no
    collaborator has been called. *)
Theorem refused_booking_changes_nothing :
  forall (env : Env) (now : Z) (b : ReqBody) (w : World),
    (status (fst (run env (postAppointments tz now b) w)) = 201
     \/ status (fst (run env (postAppointments tz now b) w)) = 400
     \/ status (fst (run env (postAppointments tz now b) w)) = 409
     \/ status (fst (run env (postAppointments tz now b) w)) = 500)
    /\ (status (fst (run env (postAppointments tz now b) w)) <> 201 ->
        citas (snd (run env (postAppointments tz now b) w)) = citas w
        /\ calls (snd (run env (postAppointments tz now b) w)) = calls w).
Proof.
  intros env now b w.
  destruct (run_postAppointments_cases tz env now b w) as [(H & _) | (H & Hc)].
  - split; [ left; exact H | ]. intros Hne. contradiction.
  - split; [ right; exact H | ]. intros _. exact Hc.
Qed.

(** X5.  A key of the index is booked at most once: after a booking
    answered 201, and whatever requests are served next (cancellations of
    that appointment included), no booking request whose date is the same
    instant and whose slot is the same is answered 201.  (A request for the
    same day at another time of day is another key.) *)
Theorem a_slot_is_booked_at_most_once :
  forall (env : Env) (now : Z) (b : ReqBody) (w : World)
         (h : list (Env * Peticion)) (env' : Env) (now' : Z) (b' : ReqBody),
    status (fst (run env (postAppointments tz now b) w)) = 201 ->
    d_fecha (sanitized b') = d_fecha (sanitized b) ->
    d_horario (sanitized b') = d_horario (sanitized b) ->
    status (fst (run env' (postAppointments tz now' b')
                   (historia tz h (snd (run env (postAppointments tz now b) w)))))
    <> 201.
Proof.
  intros env now b w h env' now' b' H201 Hf Hh.
  destruct (run env (postAppointments tz now b) w) as [r w1] eqn:Hrun.
  cbn [fst snd] in *.
  destruct (created_is_stored tz env now b w Hrun H201) as (c & Hin & Hcf & Hch & _).
  destruct (@evoluciona_In _ _ c (historia_evoluciona tz h w1) Hin) as (c' & Hin' & Hs).
  apply sucede_slotKey in Hs. unfold slotKey in Hs. injection Hs as Hf' Hh'.
  destruct (run_postAppointments_cases tz env' now' b' (historia tz h w1))
    as [(_ & _ & Hfree) | ([E | [E | E]] & _)]; try (rewrite E; discriminate).
  exfalso. unfold libre in Hfree.
  assert (Hex : existsb (sameSlot (d_fecha (sanitized b')) (d_horario (sanitized b')))
                        (citas (historia tz h w1)) = true).
  { apply existsb_exists. exists c'. split; [ exact Hin' | ].
    unfold sameSlot. rewrite Hf, Hh, Hf', Hh', Hcf, Hch, Z.eqb_refl, String.eqb_refl.
    reflexivity. }
  congruence.
Qed.
End StoreExtras.

Lemma existsb_updateFirst_false (g : Cita -> bool) p f l :
  (forall c, g c = false -> g (f c) = false) ->
  existsb g l = false -> existsb g (updateFirst p f l) = false.
Proof.
  intros Hf. induction l as [ | x l IH ]; cbn; [ reflexivity | ].
  intros H. apply orb_false_iff in H as [Hx Hl].
  destruct (p x); cbn; rewrite ?Hx, ?Hl, ?(Hf x Hx), ?(IH Hl); reflexivity.
Qed.

Section CancelExtras.
Context {P : Platform}.
Variable tz : Z.

(** The cancellation, spelled out by cases. *)
Lemma run_patchCancel env id w :
  match findByIdAndUpdate_fault env with
  | Some _ =>
      run env (patchCancel id) w = (errorDelServidor "No se pudo cancelar la cita", w)
  | None =>
      match find (hasId id) (citas w) with
      | None =>
          run env (patchCancel id) w =
          (mkResp 404 (BodyError "Cita no encontrada"
                         "La cita que intentas cancelar no existe" []), w)
      | Some c =>
          fst (run env (patchCancel id) w) = mkResp 200 (BodyCancelada id cancelada)
          /\ citas (snd (run env (patchCancel id) w))
             = updateFirst (hasId id) (setEstado cancelada) (citas w)
          /\ nextId (snd (run env (patchCancel id) w)) = nextId w
          /\ calls (snd (run env (patchCancel id) w)) = (calls w ++ borradoDe c)%list
      end
  end.
Proof.
  unfold patchCancel. cbn [run exec].
  destruct (findByIdAndUpdate_fault env); [ reflexivity | ].
  destruct (find (hasId id) (citas w)) as [c | ] eqn:Hc; [ | reflexivity ].
  pose proof (find_hasId_id _ _ Hc) as Hid.
  unfold cancelada_ok, borradoDe.
  cbn [setEstado googleCalendarEventId _id estado].
  destruct (googleCalendarEventId c) as [ev | ]; cbn [notNot];
    [ destruct (truthy ev) | ]; cbn [run exec fst snd logCall setCitas citas nextId calls];
    rewrite Hid, ?app_nil_r; repeat split; reflexivity.
Qed.

Lemma historia_sin_completadas h : forall w,
  existsb esCompletada (citas w) = false ->
  existsb esCompletada (citas (historia tz h w)) = false.
Proof.
  induction h as [ | [env [ now | now b | id ]] h IH ]; intros w Hw; cbn [historia atender];
    [ exact Hw | apply IH .. ].
  - rewrite run_getOccupied. exact Hw.
  - destruct (run_postAppointments_cases tz env now b w)
      as [(_ & Hv & Hfree) | (_ & Hc & _)]; [ | rewrite Hc; exact Hw ].
    rewrite (postAppointments_valid tz now b Hv).
    unfold reservar. cbn [run exec].
    destruct (findOne_fault env); [ exact Hw | ].
    rewrite (find_confirmada_libre _ _ _ Hfree).
    cbn [run exec guardar newCita fecha horario citas].
    destruct (insert_fault env); [ exact Hw | ].
    unfold libre in Hfree. rewrite Hfree.
    match goal with
    | |- context [ run env (integraciones ?c) ?w0 ] =>
        destruct (run_integraciones env c w0) as (w' & Hrun & _ & _ & Hcitas);
        assert (H0 : existsb esCompletada (citas w0) = false)
          by (cbn [setCitas citas]; rewrite existsb_app, Hw; reflexivity)
    end.
    rewrite Hrun. cbn [snd].
    destruct Hcitas as [E | (ev & _ & _ & E)]; rewrite E; [ exact H0 | ].
    apply existsb_updateFirst_false; [ intros c Hc; exact Hc | exact H0 ].
  - pose proof (run_patchCancel env id w) as H.
    destruct (findByIdAndUpdate_fault env); [ rewrite H; exact Hw | ].
    destruct (find (hasId id) (citas w)); [ | rewrite H; exact Hw ].
    destruct H as (_ & Hc & _). rewrite Hc.
    apply existsb_updateFirst_false; [ intros c0 _; reflexivity | exact Hw ].
Qed.

(** X6.  In a collection that respects the unique index, once an
    appointment is cancelled the list of occupied slots never again has an
    entry with its date, the same instant, and its slot, whatever requests
    are served in between: no request makes a cancelled
    appointment confirmed, and the index lets no other appointment take the
    same instant and slot.  (An appointment on the same day at another time
    of day is another key, and is listed.) *)
Theorem cancelled_slot_is_never_listed_again :
  forall (h : list (Env * Peticion)) (w : World) (c : Cita) (env : Env) (now : Z)
         (l : list Ocupada) (o : Ocupada),
    indiceUnico w ->
    In c (citas w) ->
    estado c = cancelada ->
    fst (run env (getOccupied now) (historia tz h w)) = mkResp 200 (BodyOcupadas l) ->
    In o l ->
    ~ (o_fecha o = fecha c /\ o_horario o = horario c).
Proof.
  intros h w c env now l o Hidx Hin Hest Hrun Ho [Hof Hoh].
  rewrite run_getOccupied in Hrun. cbn [fst] in Hrun.
  destruct (find_fault env); [ discriminate Hrun | ].
  injection Hrun as <-.
  apply in_map_iff in Ho as (c2 & <- & Hc2). apply filter_In in Hc2 as [Hin2 Hconf].
  apply andb_true_iff in Hconf as [Hconf _].
  destruct (@evoluciona_In _ _ c (historia_evoluciona tz h w) Hin) as (c' & Hin' & Hs).
  pose proof (sucede_slotKey Hs) as Hk.
  destruct Hs as [_ He].
  assert (Hc' : estado c' = cancelada) by (destruct He; congruence).
  assert (E : c2 = c').
  { apply (NoDup_map_In_eq slotKey (citas (historia tz h w)));
      [ apply historia_indiceUnico; exact Hidx | exact Hin2 | exact Hin' | ].
    rewrite Hk. unfold slotKey. cbn [ocupada o_fecha o_horario] in Hof, Hoh. congruence. }
  subst c2. rewrite Hc' in Hconf. discriminate Hconf.
Qed.

(** X7.  No request sets the status [completada]: a collection without a
    completed appointment has none after any history of requests. *)
Theorem no_request_completes_an_appointment :
  forall (h : list (Env * Peticion)) (w : World),
    existsb esCompletada (citas w) = false ->
    forall c, In c (citas (historia tz h w)) -> estado c <> completada.
Proof.
  intros h w Hw c Hin E.
  pose proof (historia_sin_completadas h w Hw) as H.
  assert (Hex : existsb esCompletada (citas (historia tz h w)) = true).
  { apply existsb_exists. exists c. split; [ exact Hin | ].
    unfold esCompletada. rewrite E. reflexivity. }
  congruence.
Qed.

(** X8.  A cancellation calls Google Calendar exactly when it has found the
    appointment and the appointment carries a non-empty event identifier, and
    then once, to delete that event; what the calendar answers changes
    neither the response nor the collection. *)
Theorem cancel_deletes_the_event_it_knows :
  forall (env : Env) (id : ObjectId) (w : World),
    calls (snd (run env (patchCancel id) w))
    = (calls w ++
       match findByIdAndUpdate_fault env, find (hasId id) (citas w) with
       | None, Some c => borradoDe c
       | _, _ => []
       end)%list
    /\ forall env', findByIdAndUpdate_fault env' = findByIdAndUpdate_fault env ->
         fst (run env' (patchCancel id) w) = fst (run env (patchCancel id) w)
         /\ citas (snd (run env' (patchCancel id) w))
            = citas (snd (run env (patchCancel id) w)).
Proof.
  intros env id w.
  pose proof (run_patchCancel env id w) as H. split.
  - destruct (findByIdAndUpdate_fault env);
      [ rewrite H; cbn [snd]; symmetry; apply app_nil_r | ].
    destruct (find (hasId id) (citas w));
      [ | rewrite H; cbn [snd]; symmetry; apply app_nil_r ].
    destruct H as (_ & _ & _ & Hc). exact Hc.
  - intros env' Hf. pose proof (run_patchCancel env' id w) as H'.
    rewrite Hf in H'.
    destruct (findByIdAndUpdate_fault env); [ rewrite H, H'; split; reflexivity | ].
    destruct (find (hasId id) (citas w)); [ | rewrite H, H'; split; reflexivity ].
    destruct H as (Hr & Hc & _), H' as (Hr' & Hc' & _). split; congruence.
Qed.

(** X9.  A cancellation leaves the event identifier on the appointment, so a
    second cancellation of the same appointment asks Google Calendar to
    delete the same event again. *)
Theorem cancelling_again_deletes_the_event_again :
  forall (env1 env2 : Env) (id : ObjectId) (w : World) (c : Cita) (ev : string),
    findByIdAndUpdate_fault env1 = None ->
    findByIdAndUpdate_fault env2 = None ->
    find (hasId id) (citas w) = Some c ->
    googleCalendarEventId c = Some ev ->
    truthy ev = true ->
    let w1 := snd (run env1 (patchCancel id) w) in
    fst (run env2 (patchCancel id) w1) = mkResp 200 (BodyCancelada id cancelada)
    /\ find (hasId id) (citas (snd (run env2 (patchCancel id) w1)))
       = Some (setEstado cancelada c)
    /\ calls (snd (run env2 (patchCancel id) w1))
       = (calls w ++ [CalledCalendarDelete ev; CalledCalendarDelete ev])%list.
Proof.
  intros env1 env2 id w c ev Hf1 Hf2 Hc Hev Htr w1.
  pose proof (run_patchCancel env1 id w) as H1. rewrite Hf1, Hc in H1.
  destruct H1 as (_ & Hc1 & _ & Hcalls1). fold w1 in Hc1, Hcalls1.
  assert (Hfind1 : find (hasId id) (citas w1) = Some (setEstado cancelada c)).
  { rewrite Hc1. apply find_updateFirst; [ exact Hc | ].
    apply find_some in Hc as [_ Hc]. exact Hc. }
  pose proof (run_patchCancel env2 id w1) as H2. rewrite Hf2, Hfind1 in H2.
  destruct H2 as (Hr2 & Hc2 & _ & Hcalls2).
  split; [ exact Hr2 | ]. split.
  - rewrite Hc2. rewrite (find_updateFirst _ _ _ Hfind1).
    + destruct c; reflexivity.
    + apply find_some in Hfind1 as [_ H]. exact H.
  - rewrite Hcalls2, Hcalls1. unfold borradoDe.
    cbn [setEstado googleCalendarEventId]. rewrite Hev, Htr.
    rewrite <- app_assoc. reflexivity.
Qed.
End CancelExtras.

(** ** The date rule, for dates without a time *)

Section DateRule.
Context {P : Platform}.
Variable tz : Z.

(** X10.  For a request whose date is an ISO date without a time, read as
    midnight UTC of its day, the chain of [fecha] passes exactly when the day
    is no earlier than the server's current day, on a server on or east of
    Greenwich, and no earlier than the day after, on a server west of it:
    there, an appointment cannot be booked for the current day. *)
Theorem earliest_bookable_date :
  forall (now : Z) (s : string) (d : Z),
    isISO8601 s = true ->
    toDate s = Some (d * msPerDay) ->
    - msPerDay <= tz < msPerDay ->
    (chain_fecha tz now s = [] <->
     if 0 <=? tz then localDay tz now <= d else localDay tz now + 1 <= d).
Proof.
  intros now s d Hiso Hd Htz.
  unfold chain_fecha, fechaEnElPasado. rewrite Hiso, Hd. cbn [timeValue app].
  unfold setHours0. set (D := localDay tz now). unfold msPerDay in *.
  destruct (d * 86400000 <? D * 86400000 - tz) eqn:E;
    [ apply Z.ltb_lt in E | apply Z.ltb_ge in E ];
    destruct (0 <=? tz) eqn:Ez;
    [ apply Z.leb_le in Ez | apply Z.leb_gt in Ez
    | apply Z.leb_le in Ez | apply Z.leb_gt in Ez ];
    (split; [ intros H; try discriminate H; lia | intros H; try reflexivity; lia ]).
Qed.
End DateRule.

(** ** The administrative listing *)

Lemma String_leb_trans a b c :
  String.leb a b = true -> String.leb b c = true -> String.leb a c = true.
Proof.
  unfold String.leb. intros Hab Hbc.
  destruct (String.compare a b) eqn:Eab; try discriminate Hab;
    destruct (String.compare b c) eqn:Ebc; try discriminate Hbc.
  - apply String.compare_eq_iff in Eab. subst b. rewrite Ebc. reflexivity.
  - apply String.compare_eq_iff in Eab. subst b. rewrite Ebc. reflexivity.
  - apply String.compare_eq_iff in Ebc. subst c. rewrite Eab. reflexivity.
  - apply OrderedTypeEx.String_as_OT.cmp_lt in Eab, Ebc.
    pose proof (OrderedTypeEx.String_as_OT.lt_trans _ _ _ Eab Ebc) as H.
    apply OrderedTypeEx.String_as_OT.cmp_lt in H.
    unfold OrderedTypeEx.String_as_OT.cmp in H. rewrite H. reflexivity.
Qed.

Lemma slotLeb_total a b : slotLeb a b = true \/ slotLeb b a = true.
Proof.
  unfold slotLeb.
  destruct (Z.ltb_spec (fecha a) (fecha b)) as [H | H]; [ left; reflexivity | ].
  destruct (Z.ltb_spec (fecha b) (fecha a)) as [H' | H']; [ right; reflexivity | ].
  assert (E : fecha a = fecha b) by lia. rewrite E, Z.eqb_refl. cbn.
  apply String.leb_total.
Qed.

Lemma slotLeb_trans a b c :
  slotLeb a b = true -> slotLeb b c = true -> slotLeb a c = true.
Proof.
  unfold slotLeb. intros Hab Hbc.
  apply orb_true_iff in Hab as [Hab | Hab], Hbc as [Hbc | Hbc];
    rewrite ?andb_true_iff, ?Z.ltb_lt, ?Z.eqb_eq in *.
  - apply orb_true_iff. left. apply Z.ltb_lt. lia.
  - destruct Hbc as [E _]. apply orb_true_iff. left. apply Z.ltb_lt. lia.
  - destruct Hab as [E _]. apply orb_true_iff. left. apply Z.ltb_lt. lia.
  - destruct Hab as [E1 L1], Hbc as [E2 L2]. apply orb_true_iff. right.
    apply andb_true_iff. split; [ apply Z.eqb_eq; lia | ].
    eapply String_leb_trans; eassumption.
Qed.

Lemma insertar_Permutation c l : Permutation (c :: l) (insertar c l).
Proof.
  induction l as [ | x l IH ]; cbn; [ apply Permutation_refl | ].
  destruct (slotLeb c x); [ apply Permutation_refl | ].
  eapply Permutation_trans; [ apply perm_swap | apply perm_skip; exact IH ].
Qed.

Lemma ordenar_Permutation l : Permutation l (ordenar l).
Proof.
  induction l as [ | c l IH ]; cbn; [ constructor | ].
  eapply Permutation_trans; [ apply perm_skip; exact IH | apply insertar_Permutation ].
Qed.

Lemma insertar_sorted c l :
  StronglySorted (fun a b => slotLeb a b = true) l ->
  StronglySorted (fun a b => slotLeb a b = true) (insertar c l).
Proof.
  induction l as [ | x l IH ]; cbn; intros H.
  - constructor; [ constructor | constructor ].
  - inversion H as [ | y ys Hs Hall ]; subst.
    destruct (slotLeb c x) eqn:E.
    + constructor; [ exact H | ]. constructor; [ exact E | ].
      eapply Forall_impl; [ | exact Hall ].
      intros z Hz. eapply slotLeb_trans; eassumption.
    + constructor; [ apply IH; exact Hs | ].
      assert (Hxc : slotLeb x c = true)
        by (destruct (slotLeb_total c x); congruence).
      eapply Permutation_Forall; [ apply insertar_Permutation | ].
      constructor; assumption.
Qed.

Lemma ordenar_sorted l : StronglySorted (fun a b => slotLeb a b = true) (ordenar l).
Proof.
  induction l as [ | c l IH ]; cbn; [ constructor | ].
  apply insertar_sorted. exact IH.
Qed.

(** X11.  While the store answers, the administrative listing returns every
    appointment of the collection, whatever its status, each once, ordered by
    date and, within a date, by slot; it leaves the world as it was.  When
    the store fails it answers 500. *)
Theorem listing_is_the_sorted_collection :
  forall (env : Env) (w : World),
    snd (getAppointments env w) = w
    /\ (find_fault env = None ->
        exists l, fst (getAppointments env w) = ListadoCitas l
                  /\ Permutation (citas w) l
                  /\ StronglySorted (fun a b => slotLeb a b = true) l)
    /\ (find_fault env <> None ->
        fst (getAppointments env w)
        = ListadoError 500 "Error del servidor" "No se pudieron cargar las citas").
Proof.
  intros env w. unfold getAppointments.
  destruct (find_fault env) as [e | ]; cbn [fst snd].
  - split; [ reflexivity | ]. split; [ discriminate | reflexivity ].
  - split; [ reflexivity | ]. split; [ | intros H; contradiction ].
    intros _. exists (ordenar (citas w)).
    split; [ reflexivity | ]. split; [ apply ordenar_Permutation | apply ordenar_sorted ].
Qed.

(** ** The texts *)

Section HourTexts.
Context {B : Builtins}.

(** X12.  The server and the form write the hour alike, except at midnight:
    when the hour of the text reads as the number 0 the server writes 0 and
    the form writes 12, both with AM; for any other text the two functions
    return the same. *)
Theorem server_and_form_hours_differ_only_at_midnight :
  forall (hora : string),
    (parseInt (hd EmptyString (split ":" hora)) = Entero 0 ->
     formatearHora hora
     = Some (numberToString 0 ++ ":" ++ textoDe (nth_error (split ":" hora) 1) ++ " AM")
     /\ SistemaCitas.formatearHora hora
        = Some (numberToString 12 ++ ":" ++ textoDe (nth_error (split ":" hora) 1) ++ " AM"))
    /\ (parseInt (hd EmptyString (split ":" hora)) <> Entero 0 ->
        SistemaCitas.formatearHora hora = formatearHora hora).
Proof.
  intros hora. unfold formatearHora, SistemaCitas.formatearHora.
  destruct (parseInt (hd EmptyString (split ":" hora))) as [ | n | ].
  - split; [ discriminate | reflexivity ].
  - split.
    + intros [= ->]. split; reflexivity.
    + intros Hn. destruct (12 <? n); [ reflexivity | ].
      destruct (Z.eqb_spec n 0) as [-> | _]; [ contradiction | reflexivity ].
  - split; [ discriminate | reflexivity ].
Qed.

(** X13.  For a text whose hour reads as a number from 1 to 23, the server
    writes the hour of the twelve-hour clock, from 1 to 12 and congruent to
    the hour modulo 12, then the minutes as they are, then AM before noon
    and PM from noon on. *)
Theorem hour_is_written_on_the_twelve_hour_clock :
  forall (hora : string) (H : Z),
    parseInt (hd EmptyString (split ":" hora)) = Entero H ->
    1 <= H <= 23 ->
    exists h12,
      formatearHora hora
      = Some (numberToString h12 ++ ":" ++ textoDe (nth_error (split ":" hora) 1)
              ++ " " ++ (if H <? 12 then "AM" else "PM"))
      /\ 1 <= h12 <= 12
      /\ h12 mod 12 = H mod 12.
Proof.
  intros hora H Hp HH. unfold formatearHora. rewrite Hp.
  exists (if 12 <? H then H - 12 else H). split; [ reflexivity | ].
  destruct (Z.ltb_spec 12 H) as [L | L]; split; try lia.
  replace H with (H - 12 + 1 * 12) at 2 by lia. rewrite Z.mod_add; lia.
Qed.
End HourTexts.

Lemma buscar_servicios s :
  In s servicios -> exists t, buscar s nombresDeServicio = Some t /\ t <> s.
Proof.
  intros H. unfold servicios in H. cbn [In] in H.
  repeat (destruct H as [<- | H];
          [ eexists; split; [ vm_compute; reflexivity | discriminate ] | ]).
  contradiction.
Qed.

(** X14.  Each of the eight services of the schema has a display name of its
    own in the table of [formatearServicio], different from its key and from
    the names of the others; a key that is neither in the table nor an
    inherited property of the object is returned as it is. *)
Theorem every_service_has_its_own_display_name :
  (forall s, In s servicios ->
     exists t, formatearServicio s = Texto t /\ t <> s)
  /\ (forall s1 s2, In s1 servicios -> In s2 servicios ->
        formatearServicio s1 = formatearServicio s2 -> s1 = s2)
  /\ (forall s, buscar s nombresDeServicio = None -> isIn s heredadas = false ->
        formatearServicio s = Texto s).
Proof.
  split; [ | split ].
  - intros s Hs. destruct (buscar_servicios Hs) as (t & Ht & Hne).
    exists t. unfold formatearServicio. rewrite Ht. split; [ reflexivity | exact Hne ].
  - intros s1 s2 H1 H2. unfold servicios in H1, H2. cbn [In] in H1, H2.
    repeat (destruct H1 as [<- | H1]; [ | ]); try contradiction;
      repeat (destruct H2 as [<- | H2]; [ | ]); try contradiction;
      vm_compute; intros E; first [ reflexivity | discriminate E ].
  - intros s Hb Hh. unfold formatearServicio. rewrite Hb, Hh. reflexivity.
Qed.

(** ** The telephone, from the form to the server *)

Lemma allDigits_soloDigitos s : allDigits (SistemaCitas.soloDigitos s) = true.
Proof.
  induction s as [ | c r IH ]; cbn; [ reflexivity | ].
  destruct (isDigit c) eqn:E; [ cbn; rewrite E, IH; reflexivity | exact IH ].
Qed.

(** X15.  Whatever is typed in the telephone field, what the form sends, the
    prefix +503 before the digits typed, passes the rule of the server
    exactly when eight digits were typed. *)
Theorem typed_phone_passes_exactly_with_eight_digits :
  forall (tecleado : string),
    matchesTelefono (SistemaCitas.telefonoEnviado (SistemaCitas.soloDigitos tecleado))
    = (String.length (SistemaCitas.soloDigitos tecleado) =? 8)%nat
    /\ (chain_telefono
          (SistemaCitas.telefonoEnviado (SistemaCitas.soloDigitos tecleado)) = [] <->
        String.length (SistemaCitas.soloDigitos tecleado) = 8%nat).
Proof.
  intros tecleado.
  assert (E : matchesTelefono
                (SistemaCitas.telefonoEnviado (SistemaCitas.soloDigitos tecleado))
              = (String.length (SistemaCitas.soloDigitos tecleado) =? 8)%nat).
  { unfold SistemaCitas.telefonoEnviado. cbn [append matchesTelefono].
    rewrite allDigits_soloDigitos. apply andb_true_r. }
  split; [ exact E | ].
  unfold chain_telefono. rewrite E.
  destruct (Nat.eqb_spec (String.length (SistemaCitas.soloDigitos tecleado)) 8);
    split; intros H; try reflexivity; try assumption; try discriminate H.
  contradiction.
Qed.

(** ** The calendar event and the message *)

(** The local day of midnight UTC of day [d], in a zone less than a day from
    Greenwich: [d] on or east of it, the day before west of it. *)
Lemma localDay_midnight tz d :
  - msPerDay <= tz < msPerDay ->
  localDay tz (d * msPerDay) = if 0 <=? tz then d else d - 1.
Proof.
  unfold localDay, msPerDay. intros Htz.
  destruct (Z.leb_spec 0 tz) as [L | L].
  - symmetry. apply (Z.div_unique _ _ _ tz); lia.
  - symmetry. apply (Z.div_unique _ _ _ (tz + 86400000)); lia.
Qed.

Lemma isIn_In s l : isIn s l = true -> In s l.
Proof.
  unfold isIn. intros H. apply existsb_exists in H as (x & Hin & E).
  apply String.eqb_eq in E. subst x. exact Hin.
Qed.

Lemma horaDelDia_horarios h :
  In h horarios ->
  exists ms, horaDelDia h = Some ms /\ 8 * msPerHour <= ms <= 16 * msPerHour.
Proof.
  intros H. unfold horarios in H. cbn [In] in H.
  repeat (destruct H as [<- | H];
          [ eexists; split; [ vm_compute; reflexivity | vm_compute; split; discriminate ] | ]).
  contradiction.
Qed.

Lemma formatearServicio_servicios s :
  In s servicios -> exists t, formatearServicio s = Texto t.
Proof.
  intros H. destruct (buscar_servicios H) as (t & Ht & _).
  exists t. unfold formatearServicio. rewrite Ht. reflexivity.
Qed.

Section EventExtras.
Context {R : Reloj}.

End EventExtras.

Section MessageExtras.
Context {B : Builtins}.

(** X17.  For an appointment that passes the schema and whose date is the
    midnight UTC of day [d], as the date of a request without a time is, the
    message gives the date of the day on which that instant falls for the
    server: [d] on a server on or east of Greenwich, the day before [d] on a
    server west of it. *)
Theorem message_gives_the_server_local_date :
  forall (tz : Z) (c : Cita) (d : Z) (hora : string),
    isIn (horario c) horarios = true ->
    isIn (tipoServicio c) servicios = true ->
    fecha c = d * msPerDay ->
    - msPerDay <= tz < msPerDay ->
    formatearHora (horario c) = Some hora ->
    exists servicio,
      formatearServicio (tipoServicio c) = Texto servicio
      /\ mensajeSMS tz c
         = Some ("¡Cita confirmada! 🦷" ++ nl ++ nl
                 ++ "📅 Fecha: "
                 ++ toLocaleDateString_es (if 0 <=? tz then d else d - 1) ++ nl
                 ++ "🕐 Hora: " ++ hora ++ nl
                 ++ "🔧 Servicio: " ++ servicio ++ nl ++ nl
                 ++ "Para cancelar cita, llama al 74676260" ++ nl ++ nl
                 ++ "¡Te esperamos!").
Proof.
  intros tz c d hora Hh Hs Hd Htz Hhora.
  destruct (formatearServicio_servicios (isIn_In _ _ Hs)) as (t & Ht).
  exists t. split; [ exact Ht | ].
  unfold mensajeSMS. rewrite Hh, Hs, Hhora, Ht, Hd, (localDay_midnight d Htz).
  reflexivity.
Qed.
End MessageExtras.

(** ** The form *)

Lemma diaDeLaSemana_pred d : diaDeLaSemana (d - 1) = 0 <-> diaDeLaSemana d = 1.
Proof.
  unfold diaDeLaSemana. split; intros H; Z.div_mod_to_equations; lia.
Qed.

Section FormExtras.
Context {Nav : Navegador}.

(** X18.  When the name, the address, the telephone and the date rule pass
    and the date is an ISO date without a time, read as midnight UTC of day
    [d], the form refuses the request as falling on a Sunday exactly when
    [d] is a Sunday, in a browser on or east of Greenwich, and exactly when
    [d] is a Monday, in a browser west of it. *)
Theorem form_sunday_rule_follows_the_browser_zone :
  forall (tz now : Z) (citasOcupadas : list Ocupada) (datos : SistemaCitas.Datos) (d : Z),
    (2 <= longitud (SistemaCitas.nombreCompleto_ datos))%nat ->
    emailRegexTest (SistemaCitas.email_ datos) = true ->
    matchesTelefono (SistemaCitas.telefono_ datos) = true ->
    dateParse (SistemaCitas.fecha_ datos) = Some (d * msPerDay) ->
    - msPerDay <= tz < msPerDay ->
    setHours0 tz now <= d * msPerDay ->
    (SistemaCitas.validarFormulario tz now citasOcupadas datos
     = Some "No se pueden agendar citas los domingos."
     <-> diaDeLaSemana d = if 0 <=? tz then 0 else 1).
Proof.
  intros tz now citasOcupadas datos d Hn He Ht Hd Htz Hhoy.
  unfold SistemaCitas.validarFormulario.
  assert (Hn' : (longitud (SistemaCitas.nombreCompleto_ datos) <? 2)%nat = false)
    by (apply Nat.ltb_ge; exact Hn).
  rewrite Hn', He, Ht, Hd. cbn [negb].
  assert (Hp : (d * msPerDay <? setHours0 tz now) = false)
    by (apply Z.ltb_ge; exact Hhoy).
  rewrite Hp, (localDay_midnight d Htz).
  destruct (Z.leb_spec 0 tz) as [L | L].
  - destruct (Z.eqb_spec (diaDeLaSemana d) 0) as [E | E].
    + split; [ intros _; exact E | reflexivity ].
    + split; [ | intros H; contradiction ].
      destruct (existsb _ citasOcupadas); discriminate.
  - destruct (Z.eqb_spec (diaDeLaSemana (d - 1)) 0) as [E | E].
    + split; [ intros _; apply diaDeLaSemana_pred; exact E | reflexivity ].
    + split; [ | intros H; apply diaDeLaSemana_pred in H; contradiction ].
      destruct (existsb _ citasOcupadas); discriminate.
Qed.
End FormExtras.

(** ** The further properties at work on the scenario *)

(** X3 on Ana's appointment along the history: it is still there, cancelled. *)
Lemma appointments_are_never_deleted_nor_rewritten_witness :
  In deAna (citas conAna)
  /\ exists c', In c' (citas (historia tzElSalvador unaHistoria conAna))
                /\ datos c' = datos deAna
                /\ (estado c' = estado deAna \/ estado c' = cancelada).
Proof.
  assert (H : In deAna (citas conAna)) by (vm_compute; left; reflexivity).
  exact (conj H (proj2 (@appointments_are_never_deleted_nor_rewritten
                          Reference.platform tzElSalvador unaHistoria conAna)
                   deAna H)).
Defined.

(** X4 on Luis's request for the slot Ana holds. *)
Lemma refused_booking_changes_nothing_witness :
  status (fst (run sinFallos (postAppointments tzElSalvador ahora luis) conAna)) <> 201
  /\ citas (snd (run sinFallos (postAppointments tzElSalvador ahora luis) conAna))
     = citas conAna
  /\ calls (snd (run sinFallos (postAppointments tzElSalvador ahora luis) conAna))
     = calls conAna.
Proof.
  assert (H : status (fst (run sinFallos (postAppointments tzElSalvador ahora luis)
                             conAna)) <> 201)
    by (vm_compute; discriminate).
  exact (conj H (proj2 (@refused_booking_changes_nothing Reference.platform
                          tzElSalvador sinFallos ahora luis conAna) H)).
Defined.

(** X5 on Ana's booking, its cancellation, and Luis's request. *)
Lemma a_slot_is_booked_at_most_once_witness :
  status (fst (run sinFallos (postAppointments tzElSalvador ahora ana) vacio)) = 201
  /\ d_fecha (sanitized luis) = d_fecha (sanitized ana)
  /\ d_horario (sanitized luis) = d_horario (sanitized ana)
  /\ status (fst (run sinFallos (postAppointments tzElSalvador ahora luis)
                    (historia tzElSalvador [(sinFallos, PedirCancelacion 1)]
                       (snd (run sinFallos (postAppointments tzElSalvador ahora ana)
                               vacio)))))
     <> 201.
Proof.
  assert (H1 : status (fst (run sinFallos (postAppointments tzElSalvador ahora ana)
                              vacio)) = 201)
    by (vm_compute; reflexivity).
  assert (H2 : d_fecha (sanitized luis) = d_fecha (sanitized ana)) by reflexivity.
  assert (H3 : d_horario (sanitized luis) = d_horario (sanitized ana)) by reflexivity.
  exact (conj H1 (conj H2 (conj H3
           (@a_slot_is_booked_at_most_once Reference.platform tzElSalvador
              sinFallos ahora ana vacio [(sinFallos, PedirCancelacion 1)]
              sinFallos ahora luis H1 H2 H3)))).
Defined.

Lemma indiceUnico_dosCitas : indiceUnico dosCitas.
Proof.
  unfold indiceUnico. vm_compute.
  apply NoDup_cons; [ intros [H | []]; discriminate H | ].
  apply NoDup_cons; [ intros [] | apply NoDup_nil ].
Qed.

(** X6 on the list asked for after a request for Ana's cancelled slot: the
    one entry of the list is Luis's. *)
Lemma cancelled_slot_is_never_listed_again_witness :
  indiceUnico dosCitas
  /\ In anaCancelada (citas dosCitas)
  /\ estado anaCancelada = cancelada
  /\ fst (run sinFallos (getOccupied ahora)
            (historia tzElSalvador [(sinFallos, PedirReserva ahora ana)] dosCitas))
     = mkResp 200 (BodyOcupadas [ocupada deLuis])
  /\ In (ocupada deLuis) [ocupada deLuis]
  /\ ~ (o_fecha (ocupada deLuis) = fecha anaCancelada
        /\ o_horario (ocupada deLuis) = horario anaCancelada).
Proof.
  assert (H1 : In anaCancelada (citas dosCitas)) by (left; reflexivity).
  assert (H2 : fst (run sinFallos (getOccupied ahora)
                      (historia tzElSalvador [(sinFallos, PedirReserva ahora ana)]
                         dosCitas))
               = mkResp 200 (BodyOcupadas [ocupada deLuis]))
    by (vm_compute; reflexivity).
  assert (H3 : In (ocupada deLuis) [ocupada deLuis]) by (left; reflexivity).
  exact (conj indiceUnico_dosCitas (conj H1 (conj eq_refl (conj H2 (conj H3
           (@cancelled_slot_is_never_listed_again Reference.platform tzElSalvador
              [(sinFallos, PedirReserva ahora ana)] dosCitas anaCancelada
              sinFallos ahora [ocupada deLuis] (ocupada deLuis)
              indiceUnico_dosCitas H1 eq_refl H2 H3)))))).
Defined.

(** X7 on the history: Ana's appointment ends cancelled, not completed. *)
Lemma no_request_completes_an_appointment_witness :
  existsb esCompletada (citas conAna) = false
  /\ exists c, In c (citas (historia tzElSalvador unaHistoria conAna))
               /\ estado c <> completada.
Proof.
  assert (H1 : existsb esCompletada (citas conAna) = false) by reflexivity.
  split; [ exact H1 | ].
  exists (setEstado cancelada deAna).
  assert (H2 : In (setEstado cancelada deAna)
                  (citas (historia tzElSalvador unaHistoria conAna)))
    by (vm_compute; left; reflexivity).
  split; [ exact H2 | ].
  exact (@no_request_completes_an_appointment Reference.platform tzElSalvador
           unaHistoria conAna H1 (setEstado cancelada deAna) H2).
Defined.

(** X8 on the cancellation of Ana's appointment, the calendar answering or
    not. *)
Lemma cancel_deletes_the_event_it_knows_witness :
  findByIdAndUpdate_fault sinIntegraciones = findByIdAndUpdate_fault sinFallos
  /\ calls (snd (run sinFallos (patchCancel 1) conAna))
     = (calls conAna ++ [CalledCalendarDelete "evt-1"])%list
  /\ fst (run sinIntegraciones (patchCancel 1) conAna)
     = fst (run sinFallos (patchCancel 1) conAna)
  /\ citas (snd (run sinIntegraciones (patchCancel 1) conAna))
     = citas (snd (run sinFallos (patchCancel 1) conAna)).
Proof.
  destruct (@cancel_deletes_the_event_it_knows Reference.platform sinFallos 1%N conAna)
    as [Hcalls Hsame].
  exact (conj eq_refl (conj Hcalls (Hsame sinIntegraciones eq_refl))).
Defined.

(** X9 on two cancellations of Ana's appointment. *)
Lemma cancelling_again_deletes_the_event_again_witness :
  find (hasId 1) (citas conAna) = Some deAna
  /\ googleCalendarEventId deAna = Some "evt-1"
  /\ truthy "evt-1" = true
  /\ fst (run sinFallos (patchCancel 1) (snd (run sinFallos (patchCancel 1) conAna)))
     = mkResp 200 (BodyCancelada 1 cancelada)
  /\ find (hasId 1)
          (citas (snd (run sinFallos (patchCancel 1)
                         (snd (run sinFallos (patchCancel 1) conAna)))))
     = Some (setEstado cancelada deAna)
  /\ calls (snd (run sinFallos (patchCancel 1)
                   (snd (run sinFallos (patchCancel 1) conAna))))
     = (calls conAna ++ [CalledCalendarDelete "evt-1"; CalledCalendarDelete "evt-1"])%list.
Proof.
  assert (H1 : find (hasId 1) (citas conAna) = Some deAna) by (vm_compute; reflexivity).
  exact (conj H1 (conj eq_refl (conj eq_refl
           (@cancelling_again_deletes_the_event_again Reference.platform
              sinFallos sinFallos 1%N conAna deAna "evt-1"
              eq_refl eq_refl H1 eq_refl eq_refl)))).
Defined.

(** X10 on a request for the current day of a server at the clinic: the
    chain refuses it. *)
Lemma earliest_bookable_date_witness :
  isISO8601 "2030-05-10" = true
  /\ toDate "2030-05-10" = Some (22044 * msPerDay)
  /\ - msPerDay <= tzElSalvador < msPerDay
  /\ localDay tzElSalvador ahora = 22044
  /\ (chain_fecha tzElSalvador ahora "2030-05-10" = [] <->
      localDay tzElSalvador ahora + 1 <= 22044).
Proof.
  assert (H1 : isISO8601 "2030-05-10" = true) by (vm_compute; reflexivity).
  assert (H2 : toDate "2030-05-10" = Some (22044 * msPerDay)) by (vm_compute; reflexivity).
  assert (H3 : - msPerDay <= tzElSalvador < msPerDay) by (unfold tzElSalvador, msPerDay, msPerHour; lia).
  exact (conj H1 (conj H2 (conj H3 (conj eq_refl
           (@earliest_bookable_date Reference.platform tzElSalvador ahora
              "2030-05-10" 22044 H1 H2 H3))))).
Defined.

(** X11 on the two appointments, and on a store that does not answer. *)
Lemma listing_is_the_sorted_collection_witness :
  find_fault sinFallos = None
  /\ find_fault sinAlmacen <> None
  /\ (exists l, fst (getAppointments sinFallos dosCitas) = ListadoCitas l
                /\ Permutation (citas dosCitas) l
                /\ StronglySorted (fun a b => slotLeb a b = true) l)
  /\ fst (getAppointments sinAlmacen dosCitas)
     = ListadoError 500 "Error del servidor" "No se pudieron cargar las citas".
Proof.
  assert (H1 : find_fault sinFallos = None) by reflexivity.
  assert (H2 : find_fault sinAlmacen <> None) by discriminate.
  exact (conj H1 (conj H2
           (conj (proj1 (proj2 (listing_is_the_sorted_collection sinFallos dosCitas)) H1)
                 (proj2 (proj2 (listing_is_the_sorted_collection sinAlmacen dosCitas))
                    H2)))).
Defined.

(** X12 on half past midnight and on two in the afternoon. *)
Lemma server_and_form_hours_differ_only_at_midnight_witness :
  parseInt (hd EmptyString (split ":" "00:30")) = Entero 0
  /\ parseInt (hd EmptyString (split ":" "14:00")) <> Entero 0
  /\ formatearHora "00:30" = Some "0:30 AM"
  /\ SistemaCitas.formatearHora "00:30" = Some "12:30 AM"
  /\ SistemaCitas.formatearHora "14:00" = formatearHora "14:00".
Proof.
  assert (H1 : parseInt (hd EmptyString (split ":" "00:30")) = Entero 0)
    by (vm_compute; reflexivity).
  assert (H2 : parseInt (hd EmptyString (split ":" "14:00")) <> Entero 0)
    by (vm_compute; discriminate).
  destruct (proj1 (@server_and_form_hours_differ_only_at_midnight
                     ReferenceBuiltins.builtins "00:30") H1) as [Ha Hb].
  exact (conj H1 (conj H2 (conj Ha (conj Hb
           (proj2 (@server_and_form_hours_differ_only_at_midnight
                     ReferenceBuiltins.builtins "14:00") H2))))).
Defined.

(** X13 on half past two in the afternoon. *)
Lemma hour_is_written_on_the_twelve_hour_clock_witness :
  parseInt (hd EmptyString (split ":" "14:30")) = Entero 14
  /\ 1 <= 14 <= 23
  /\ exists h12,
       formatearHora "14:30" = Some (numberToString h12 ++ ":" ++ "30" ++ " " ++ "PM")
       /\ 1 <= h12 <= 12
       /\ h12 mod 12 = 14 mod 12.
Proof.
  assert (H1 : parseInt (hd EmptyString (split ":" "14:30")) = Entero 14)
    by (vm_compute; reflexivity).
  assert (H2 : 1 <= 14 <= 23) by lia.
  exact (conj H1 (conj H2
           (@hour_is_written_on_the_twelve_hour_clock ReferenceBuiltins.builtins
              "14:30" 14 H1 H2))).
Defined.

(** X14 on a service of the schema and on a key the table does not have. *)
Lemma every_service_has_its_own_display_name_witness :
  In "ortodoncia" servicios
  /\ In "carillas" servicios
  /\ buscar "blanqueamiento" nombresDeServicio = None
  /\ isIn "blanqueamiento" heredadas = false
  /\ (exists t, formatearServicio "ortodoncia" = Texto t /\ t <> "ortodoncia")
  /\ (formatearServicio "ortodoncia" = formatearServicio "carillas" ->
      "ortodoncia" = "carillas")
  /\ formatearServicio "blanqueamiento" = Texto "blanqueamiento".
Proof.
  assert (H1 : In "ortodoncia" servicios) by (cbn; tauto).
  assert (H2 : In "carillas" servicios) by (cbn; tauto).
  assert (H3 : buscar "blanqueamiento" nombresDeServicio = None) by reflexivity.
  assert (H4 : isIn "blanqueamiento" heredadas = false) by reflexivity.
  destruct every_service_has_its_own_display_name as (Ha & Hb & Hc).
  exact (conj H1 (conj H2 (conj H3 (conj H4
           (conj (Ha "ortodoncia" H1)
              (conj (Hb "ortodoncia" "carillas" H1 H2)
                 (Hc "blanqueamiento" H3 H4))))))).
Defined.


(** X17 on Ana's appointment of 20 May 2030, on a server at the clinic: the
    message says 19 May. *)
Lemma message_gives_the_server_local_date_witness :
  isIn (horario deAna) horarios = true
  /\ isIn (tipoServicio deAna) servicios = true
  /\ fecha deAna = 22054 * msPerDay
  /\ - msPerDay <= tzElSalvador < msPerDay
  /\ formatearHora (horario deAna) = Some "9:00 AM"
  /\ toLocaleDateString_es (22054 - 1) = "19 de mayo de 2030"
  /\ exists servicio,
       formatearServicio (tipoServicio deAna) = Texto servicio
       /\ mensajeSMS tzElSalvador deAna
          = Some ("¡Cita confirmada! 🦷" ++ nl ++ nl
                  ++ "📅 Fecha: " ++ toLocaleDateString_es (22054 - 1) ++ nl
                  ++ "🕐 Hora: " ++ "9:00 AM" ++ nl
                  ++ "🔧 Servicio: " ++ servicio ++ nl ++ nl
                  ++ "Para cancelar cita, llama al 74676260" ++ nl ++ nl
                  ++ "¡Te esperamos!").
Proof.
  assert (H1 : isIn (horario deAna) horarios = true) by reflexivity.
  assert (H2 : isIn (tipoServicio deAna) servicios = true) by reflexivity.
  assert (H3 : fecha deAna = 22054 * msPerDay) by reflexivity.
  assert (H4 : - msPerDay <= tzElSalvador < msPerDay)
    by (unfold tzElSalvador, msPerDay, msPerHour; lia).
  assert (H5 : formatearHora (horario deAna) = Some "9:00 AM") by (vm_compute; reflexivity).
  assert (H6 : toLocaleDateString_es (22054 - 1) = "19 de mayo de 2030")
    by (vm_compute; reflexivity).
  exact (conj H1 (conj H2 (conj H3 (conj H4 (conj H5 (conj H6
           (@message_gives_the_server_local_date ReferenceBuiltins.builtins
              tzElSalvador deAna 22054 "9:00 AM" H1 H2 H3 H4 H5))))))).
Defined.

(** X18 on Ana's form for Monday 20 May 2030, asked on the 10th in a browser
    at the clinic: the form says that no appointment is given on Sundays. *)
Lemma form_sunday_rule_follows_the_browser_zone_witness :
  (2 <= longitud (SistemaCitas.nombreCompleto_ datosDeAna))%nat
  /\ emailRegexTest (SistemaCitas.email_ datosDeAna) = true
  /\ matchesTelefono (SistemaCitas.telefono_ datosDeAna) = true
  /\ dateParse (SistemaCitas.fecha_ datosDeAna) = Some (22054 * msPerDay)
  /\ - msPerDay <= tzElSalvador < msPerDay
  /\ setHours0 tzElSalvador ahora <= 22054 * msPerDay
  /\ diaDeLaSemana 22054 = 1
  /\ (SistemaCitas.validarFormulario tzElSalvador ahora [] datosDeAna
      = Some "No se pueden agendar citas los domingos."
      <-> diaDeLaSemana 22054 = 1).
Proof.
  assert (H1 : (2 <= longitud (SistemaCitas.nombreCompleto_ datosDeAna))%nat)
    by (vm_compute; lia).
  assert (H2 : emailRegexTest (SistemaCitas.email_ datosDeAna) = true)
    by (vm_compute; reflexivity).
  assert (H3 : matchesTelefono (SistemaCitas.telefono_ datosDeAna) = true)
    by (vm_compute; reflexivity).
  assert (H4 : dateParse (SistemaCitas.fecha_ datosDeAna) = Some (22054 * msPerDay))
    by (vm_compute; reflexivity).
  assert (H5 : - msPerDay <= tzElSalvador < msPerDay)
    by (unfold tzElSalvador, msPerDay, msPerHour; lia).
  assert (H6 : setHours0 tzElSalvador ahora <= 22054 * msPerDay)
    by (vm_compute; discriminate).
  exact (conj H1 (conj H2 (conj H3 (conj H4 (conj H5 (conj H6 (conj eq_refl
           (@form_sunday_rule_follows_the_browser_zone
              ReferenceBuiltins.navegador tzElSalvador ahora [] datosDeAna 22054
              H1 H2 H3 H4 H5 H6)))))))).
Defined.
